(** * Forward modelling for prisms: [harmonica/_forward/prism.py]

    A shallow embedding of [prism_gravity] and of the helpers it calls
    ([_check_prisms], [_check_singular_points], [_discard_null_prisms],
    [jit_prism_gravity]) together with the properties stated about them.

    Numbers are IEEE 754 binary64 values (the default [dtype="float64"]),
    modelled by Rocq's primitive [float], so [==], [>], [+] and [*] are the
    hardware operations, with their treatment of signed zeros and NaN.  The
    analytic kernels and the three edge predicates are imported by the source
    from the [choclo] package; they are parameters of the model. *)

From Stdlib Require Import Floats List String Ascii Bool Arith Lia ZArith.
Import ListNotations.

Local Open Scope string_scope.
Local Open Scope float_scope.
Local Open Scope list_scope.

(** ** Data model *)

(** One row of the [prisms] array: west, east, south, north, bottom, top. *)
Record prism : Type := mkPrism {
  west : float; east : float;
  south : float; north : float;
  bottom : float; top : float
}.

(** [coordinates[:3]] after [np.atleast_1d(i).ravel()]: three flat arrays. *)
Record coordinates : Type := mkCoordinates {
  easting : list float;
  northing : list float;
  upward : list float
}.

(** The signature shared by the ten kernels of [choclo.prism]:
    [kernel(easting, northing, upward, prism, density)]. *)
Definition kernel : Type := float -> float -> float -> prism -> float -> float.

(** The signature of [is_point_on_easting_edge] and its two siblings:
    [check_func(easting, northing, upward, prism)]. *)
Definition check_func : Type := float -> float -> float -> prism -> bool.

(** The arguments of one kernel evaluation, as recorded in the call log. *)
Record kernel_call : Type := mkCall {
  call_easting : float; call_northing : float; call_upward : float;
  call_prism : prism; call_density : float
}.

Inductive warning : Type :=
| SingularPointWarning.  (* UserWarning: "Found observation point on singular point of a prism." *)

(** A piece of an error message: literal text, or ["{}".format(prism)]. *)
Inductive msg_item : Type :=
| Text (s : string)
| Repr (p : prism).

(** The exceptions [prism_gravity] can raise.  The first four are
    [ValueError]s told apart by their message. *)
Inductive error : Type :=
| UnknownField (field : string)
| BroadcastError
| DensityCountMismatch (density_size n_prisms : nat)
| InvalidGeometry (err_msg : list msg_item)
| MaskIndexError
| MissingProgressDependency.

(** What a call leaves behind: the value returned or the exception raised,
    the warnings emitted, and the kernel evaluations performed, in order. *)
Record run : Type := mkRun {
  outcome : error + list float;
  warnings : list warning;
  kernel_calls : list kernel_call
}.

(** ** Arrays *)

(** [a[i]] on a flat array of floats.  The jitted loops are compiled
    without bounds checking; a read past the end has no defined value in the
    source and yields [nan] here. *)
Definition get (a : list float) (i : nat) : float := nth i a nan.

Definition default_prism : prism := mkPrism nan nan nan nan nan nan.

(** [prisms[m, :]] *)
Definition row (prisms : list prism) (m : nat) : prism := nth m prisms default_prism.

(** [out[l] += v].  [out] has the broadcast size and [l] ranges over
    [easting.size]; an index past the end, which the source does not guard
    against either, leaves the array as it is here. *)
Fixpoint add_at (l : nat) (v : float) (out : list float) : list float :=
  match out, l with
  | [], _ => []
  | x :: out', O => (x + v) :: out'
  | x :: out', S l' => x :: add_at l' v out'
  end.

(** [np.zeros(n)] *)
Definition zeros (n : nat) : list float := repeat 0 n.

(** [a[mask]]: selection by a boolean mask of the same length. *)
Fixpoint select {A : Type} (mask : list bool) (a : list A) : list A :=
  match mask, a with
  | b :: mask', x :: a' => if b then x :: select mask' a' else select mask' a'
  | _, _ => []
  end.

(** [mask[idx] = True] for a boolean index [idx] of the same length. *)
Fixpoint set_true (mask idx : list bool) : list bool :=
  match mask, idx with
  | b :: mask', i :: idx' => (if i then true else b) :: set_true mask' idx'
  | _, _ => mask
  end.

(** [np.broadcast(e, n, u).size] for three flat arrays: an array of size
    one is stretched, and the other sizes must agree ([None] is the
    [ValueError] numpy raises otherwise). *)
Definition broadcast_size (c : coordinates) : option nat :=
  let sizes := [List.length (easting c); List.length (northing c); List.length (upward c)] in
  match filter (fun s => negb (Nat.eqb s 1)) sizes with
  | [] => Some 1%nat
  | s :: rest => if forallb (Nat.eqb s) rest then Some s else None
  end.

(** ** Exceptions and warnings

    A computation emits warnings and then either returns or raises. *)
Definition M (A : Type) : Type := (list warning * (error + A))%type.

Definition ret {A : Type} (a : A) : M A := ([], inr a).
Definition raise {A : Type} (e : error) : M A := ([], inl e).
Definition warn (w : warning) : M unit := ([w], inr tt).
Definition bind {A B : Type} (c : M A) (k : A -> M B) : M B :=
  match c with
  | (ws, inl e) => (ws, inl e)
  | (ws, inr a) => let (ws', r) := k a in (ws ++ ws', r)
  end.

Notation "x <- c ;; k" := (bind c (fun x => k))
  (at level 61, c at next level, right associativity).
Notation "c ;; k" := (bind c (fun _ => k))
  (at level 61, right associativity).

(** ** Comparisons and text *)

(** [a > b] on floats. *)
Definition gtb (a b : float) : bool := b <? a.

(** [mask.any()] *)
Definition any (mask : list bool) : bool := existsb (fun b => b) mask.

(** [field in (...)] for a tuple of strings. *)
Definition in_tuple (field : string) (t : list string) : bool :=
  existsb (String.eqb field) t.

Definition nl : string := String (ascii_of_nat 10) EmptyString.
Definition tab : string := String (ascii_of_nat 9) EmptyString.

(** ** Model validator *)

(** The lines [err_msg += "\tInvalid prism: {}\n".format(prism)], one for each
    row of [prisms[bad]]. *)
Definition invalid_lines (label : string) (bad : list prism) : list msg_item :=
  flat_map (fun p => [Text (tab ++ label)%string; Repr p; Text nl]) bad.

(** The three boundary orderings, tested one after the other; the first
    one that some prism violates raises, with the prisms that violate it. *)
Definition _check_prisms (prisms : list prism) : M unit :=
  let err_msg := [Text "Invalid prism or prisms. "] in
  let bad_we := map (fun p => gtb (west p) (east p)) prisms in
  let bad_sn := map (fun p => gtb (south p) (north p)) prisms in
  let bad_bt := map (fun p => gtb (bottom p) (top p)) prisms in
  if any bad_we then
    let err_msg := err_msg ++ [Text ("The west boundary can't be greater than the east one." ++ nl)%string] in
    raise (InvalidGeometry (err_msg ++ invalid_lines "Invalid prism: " (select bad_we prisms)))
  else if any bad_sn then
    let err_msg := err_msg ++ [Text ("The south boundary can't be greater than the north one." ++ nl)%string] in
    raise (InvalidGeometry (err_msg ++ invalid_lines "Invalid prism: " (select bad_sn prisms)))
  else if any bad_bt then
    let err_msg := err_msg ++ [Text ("The bottom radius boundary can't be greater than the top one." ++ nl)%string] in
    raise (InvalidGeometry (err_msg ++ invalid_lines "Invalid tesseroid: " (select bad_bt prisms)))
  else ret tt.

(** ** Null-prism filter *)

(** The mask [null_prisms] of [_discard_null_prisms], or [None] where
    [null_prisms[density == 0] = True] raises [IndexError] because the boolean
    index has another size than the mask. *)
Definition null_mask (prisms : list prism) (density : list float) : option (list bool) :=
  let null_prisms :=
    map (fun p => (west p =? east p) || (south p =? north p) || (bottom p =? top p)) prisms in
  if Nat.eqb (List.length density) (List.length prisms)
  then Some (set_true null_prisms (map (fun d => d =? 0) density))
  else None.

(** The prisms and densities the mask does not mark, in order. *)
Definition _discard_null_prisms (prisms : list prism) (density : list float)
  : M (list prism * list float) :=
  match null_mask prisms density with
  | None => raise MaskIndexError
  | Some null_prisms =>
      let keep := map negb null_prisms in
      ret (select keep prisms, select keep density)
  end.

(** ** Singularity scanner *)

(** The two scans return at the first point and prism for which a predicate
    holds. *)
Definition _any_singular_point_diagonal
  (easting northing upward : list float) (prisms : list prism)
  (check_func1 check_func2 : check_func) : bool :=
  let n_coords := List.length easting in
  let n_prisms := List.length prisms in
  existsb (fun l =>
    existsb (fun m =>
      check_func1 (get easting l) (get northing l) (get upward l) (row prisms m)
      || check_func2 (get easting l) (get northing l) (get upward l) (row prisms m))
      (seq 0 n_prisms))
    (seq 0 n_coords).

Definition _any_singular_point_non_diagonal
  (easting northing upward : list float) (prisms : list prism)
  (check : check_func) : bool :=
  let n_coords := List.length easting in
  let n_prisms := List.length prisms in
  existsb (fun l =>
    existsb (fun m =>
      check (get easting l) (get northing l) (get upward l) (row prisms m))
      (seq 0 n_prisms))
    (seq 0 n_coords).

(** ** Accumulation engine *)

(** The arguments of [kernel(easting[l], northing[l], upward[l], prisms[m, :],
    density[m])]. *)
Definition call_at (c : coordinates) (prisms : list prism) (density : list float)
  (l m : nat) : kernel_call :=
  mkCall (get (easting c) l) (get (northing c) l) (get (upward c) l)
         (row prisms m) (get density m).

Definition eval (k : kernel) (a : kernel_call) : float :=
  k (call_easting a) (call_northing a) (call_upward a) (call_prism a) (call_density a).

(** The body of the inner loop: [out[l] += kernel(...)], with the call logged. *)
Definition accumulate (c : coordinates) (prisms : list prism) (density : list float)
  (k : kernel) (l m : nat) (st : list float * list kernel_call)
  : list float * list kernel_call :=
  let a := call_at c prisms density l m in
  (add_at l (eval k a) (fst st), snd st ++ [a]).

(** [jit_prism_gravity] run on one core: the two loops in program order. *)
Definition jit_prism_gravity_serial (c : coordinates) (prisms : list prism)
  (density : list float) (k : kernel) (out : list float)
  : list float * list kernel_call :=
  fold_left (fun st l =>
      fold_left (fun st m => accumulate c prisms density k l m st)
                (seq 0 (List.length prisms)) st)
    (seq 0 (List.length (easting c))) (out, []).

(** [jit_prism_gravity] compiled with [parallel=True]: the iterations of the
    outer [prange] loop run on several workers.  Each iteration [l] keeps its
    own inner counter [m]; a schedule lists, step after step, which iteration
    performs its next inner step. *)
Record par_state : Type := mkPar {
  par_out : list float;
  par_next : list nat;
  par_calls : list kernel_call
}.

(** [a[l] = v] on the counters. *)
Fixpoint set_at (l : nat) (v : nat) (a : list nat) : list nat :=
  match a, l with
  | [], _ => []
  | _ :: a', O => v :: a'
  | x :: a', S l' => x :: set_at l' v a'
  end.

(** One step of iteration [l]: the body of its inner loop at its counter,
    which then advances.  A step scheduled for an iteration that has run
    through all the prisms, or that does not exist, does nothing. *)
Definition par_step (c : coordinates) (prisms : list prism) (density : list float)
  (k : kernel) (st : par_state) (l : nat) : par_state :=
  let m := nth l (par_next st) (List.length prisms) in
  if Nat.ltb m (List.length prisms) then
    let r := accumulate c prisms density k l m (par_out st, par_calls st) in
    mkPar (fst r) (set_at l (S m) (par_next st)) (snd r)
  else st.

Definition jit_prism_gravity_parallel (schedule : list nat) (c : coordinates)
  (prisms : list prism) (density : list float) (k : kernel) (out : list float)
  : list float * list kernel_call :=
  let init := mkPar out (repeat 0%nat (List.length (easting c))) [] in
  let final := fold_left (par_step c prisms density k) schedule init in
  (par_out final, par_calls final).

(** A schedule is complete when every iteration of the outer loop gets all
    the steps of its inner loop, and nothing else is scheduled. *)
Definition complete_schedule (n_points n_prisms : nat) (schedule : list nat) : Prop :=
  Forall (fun l => l < n_points)%nat schedule /\
  forall l, (l < n_points)%nat -> count_occ Nat.eq_dec schedule l = n_prisms.

(** ** Unit and sign normalisation *)

(** The three in-place updates that close [prism_gravity]. *)
Definition normalize (field : string) (result : list float) : list float :=
  let result :=
    if in_tuple field ["g_z"; "g_ez"; "g_nz"]
    then map (fun x => x * (-1)) result else result in
  let result :=
    if in_tuple field ["g_e"; "g_n"; "g_z"]
    then map (fun x => x * 1e5) result else result in
  let result :=
    if in_tuple field ["g_ee"; "g_nn"; "g_zz"; "g_en"; "g_ez"; "g_nz"]
    then map (fun x => x * 1e9) result else result in
  result.

(** ** The public function *)

Section PrismGravity.

(** The kernels of [choclo.prism]. *)
Variables gravity_pot gravity_e gravity_n gravity_u : kernel.
Variables gravity_ee gravity_nn gravity_uu : kernel.
Variables gravity_en gravity_eu gravity_nu : kernel.

(** The edge predicates of [choclo.prism._utils]. *)
Variables is_point_on_easting_edge is_point_on_northing_edge
          is_point_on_upward_edge : check_func.

(** Whether [numba_progress] could be imported ([ProgressBar is not None]). *)
Variable ProgressBar : bool.

Definition FIELDS : list (string * kernel) :=
  [ ("potential", gravity_pot);
    ("g_e", gravity_e);
    ("g_n", gravity_n);
    ("g_z", gravity_u);
    ("g_ee", gravity_ee);
    ("g_nn", gravity_nn);
    ("g_zz", gravity_uu);
    ("g_en", gravity_en);
    ("g_ez", gravity_eu);
    ("g_nz", gravity_nu) ].

(** [FIELDS[field]], [None] when [field not in FIELDS]. *)
Definition FIELDS_get (field : string) : option kernel :=
  option_map snd (find (fun kv => String.eqb field (fst kv)) FIELDS).

(** The scan of the observation points against the prisms, as given, for
    the six tensor components; one warning if anything is found. *)
Definition _check_singular_points (c : coordinates) (prisms : list prism)
  (field : string) : M unit :=
  let any_singular_point := false in
  let any_singular_point :=
    if String.eqb field "g_ee" then
      _any_singular_point_diagonal (easting c) (northing c) (upward c) prisms
        is_point_on_northing_edge is_point_on_upward_edge
    else if String.eqb field "g_nn" then
      _any_singular_point_diagonal (easting c) (northing c) (upward c) prisms
        is_point_on_easting_edge is_point_on_upward_edge
    else if String.eqb field "g_zz" then
      _any_singular_point_diagonal (easting c) (northing c) (upward c) prisms
        is_point_on_easting_edge is_point_on_northing_edge
    else if String.eqb field "g_en" then
      _any_singular_point_non_diagonal (easting c) (northing c) (upward c) prisms
        is_point_on_upward_edge
    else if String.eqb field "g_ez" then
      _any_singular_point_non_diagonal (easting c) (northing c) (upward c) prisms
        is_point_on_northing_edge
    else if String.eqb field "g_nz" then
      _any_singular_point_non_diagonal (easting c) (northing c) (upward c) prisms
        is_point_on_easting_edge
    else any_singular_point in
  if any_singular_point then warn SingularPointWarning else ret tt.

(** The sanity checks guarded by [if not disable_checks]. *)
Definition sanity_checks (c : coordinates) (prisms : list prism)
  (density : list float) (field : string) : M unit :=
  (if Nat.eqb (List.length density) (List.length prisms) then ret tt
   else raise (DensityCountMismatch (List.length density) (List.length prisms))) ;;
  _check_prisms prisms ;;
  _check_singular_points c prisms field.

(** The body of [prism_gravity] after the field has been looked up.  The
    extra argument [schedule] is the order in which the workers of the
    parallel loop take their steps; the serial path ignores it. *)
Definition prism_gravity_body (schedule : list nat) (c : coordinates)
  (prisms : list prism) (density : list float) (field : string) (k : kernel)
  (parallel progressbar disable_checks : bool)
  : M (list float * list kernel_call) :=
  match broadcast_size c with
  | None => raise BroadcastError
  | Some size =>
      let result := zeros size in
      (if disable_checks then ret tt else sanity_checks c prisms density field) ;;
      pd <- _discard_null_prisms prisms density ;;
      let (prisms, density) := pd in
      (if progressbar && negb ProgressBar then raise MissingProgressDependency
       else ret tt) ;;
      let forward_func :=
        if parallel then jit_prism_gravity_parallel schedule
        else jit_prism_gravity_serial in
      let (result, calls) := forward_func c prisms density k result in
      ret (normalize field result, calls)
  end.

(** [prism_gravity(coordinates, prisms, density, field, parallel,
    dtype="float64", progressbar, disable_checks)].  The field is looked up
    first; an exception leaves the warnings emitted before it and no kernel
    evaluation, since every [raise] precedes the forward function. *)
Definition prism_gravity (schedule : list nat) (c : coordinates)
  (prisms : list prism) (density : list float) (field : string)
  (parallel progressbar disable_checks : bool) : run :=
  match FIELDS_get field with
  | None => mkRun (inl (UnknownField field)) [] []
  | Some k =>
      match prism_gravity_body schedule c prisms density field k
              parallel progressbar disable_checks with
      | (ws, inl e) => mkRun (inl e) ws []
      | (ws, inr (result, calls)) => mkRun (inr result) ws calls
      end
  end.

End PrismGravity.

(** ** The contract, in the words of the specification *)

(** The ten registered field tags. *)
Definition registered_tags : list string :=
  ["potential"; "g_e"; "g_n"; "g_z"; "g_ee"; "g_nn"; "g_zz"; "g_en"; "g_ez"; "g_nz"].

(** The six tensor components, for which a singularity scan is made. *)
Definition tensor_tags : list string :=
  ["g_ee"; "g_nn"; "g_zz"; "g_en"; "g_ez"; "g_nz"].

(** Sign class of a tag: the downward and downward-coupled fields. *)
Definition sign_flipped (field : string) : bool :=
  in_tuple field ["g_z"; "g_ez"; "g_nz"].

(** Unit class of a tag: mGal for the accelerations, Eotvos for the tensor
    components, none for the potential. *)
Definition unit_scale (field : string) : option float :=
  if in_tuple field ["g_e"; "g_n"; "g_z"] then Some 1e5
  else if in_tuple field tensor_tags then Some 1e9
  else None.

(** The post-processing rule of a tag applied to one raw value: negate if
    the tag is sign-flipped, then scale by the tag's unit factor, once. *)
Definition spec_normalize (field : string) (raw : float) : float :=
  let signed := if sign_flipped field then - raw else raw in
  match unit_scale field with
  | Some factor => signed * factor
  | None => signed
  end.

(** A null prism: zero extent on some axis, or zero density. *)
Definition null_prism (p : prism) (d : float) : bool :=
  (west p =? east p) || (south p =? north p) || (bottom p =? top p) || (d =? 0).

(** The prisms that survive the filter, each with its density, in order. *)
Definition surviving (prisms : list prism) (density : list float)
  : list (prism * float) :=
  filter (fun pd => negb (null_prism (fst pd) (snd pd))) (combine prisms density).

(** The raw sum at one point: the contributions of the prisms added one
    after the other, in order, to an accumulator that starts at zero. *)
Definition raw_sum (k : kernel) (e n u : float) (ps : list (prism * float)) : float :=
  fold_left (fun acc pd => acc + k e n u (fst pd) (snd pd)) ps 0.

Definition raw_sums (k : kernel) (c : coordinates) (ps : list (prism * float))
  : list float :=
  map (fun l => raw_sum k (get (easting c) l) (get (northing c) l) (get (upward c) l) ps)
      (seq 0 (List.length (easting c))).

(** The boundary ordering every prism of the data model satisfies. *)
Definition well_ordered (p : prism) : bool :=
  (west p <=? east p) && (south p <=? north p) && (bottom p <=? top p).

(** The three constraints, in the order [_check_prisms] tests them. *)
Inductive constraint : Type := WestEast | SouthNorth | BottomTop.

Definition violates (c : constraint) (p : prism) : bool :=
  match c with
  | WestEast => gtb (west p) (east p)
  | SouthNorth => gtb (south p) (north p)
  | BottomTop => gtb (bottom p) (top p)
  end.

Definition constraint_header (c : constraint) : string :=
  match c with
  | WestEast => "The west boundary can't be greater than the east one." ++ nl
  | SouthNorth => "The south boundary can't be greater than the north one." ++ nl
  | BottomTop => "The bottom radius boundary can't be greater than the top one." ++ nl
  end%string.

Definition constraint_label (c : constraint) : string :=
  match c with
  | BottomTop => "Invalid tesseroid: "
  | _ => "Invalid prism: "
  end.

(** The first constraint, in that order, some prism violates. *)
Definition first_violated (prisms : list prism) : option constraint :=
  find (fun c => existsb (violates c) prisms) [WestEast; SouthNorth; BottomTop].

(** The message the validator raises for a constraint: the general heading,
    the heading of the constraint, and one line for each prism violating it,
    in the order of the input. *)
Definition geometry_message (cst : constraint) (prisms : list prism) : list msg_item :=
  Text "Invalid prism or prisms. " :: Text (constraint_header cst)
    :: invalid_lines (constraint_label cst) (filter (violates cst) prisms).

(** Whether a prism violates one of the three constraints. *)
Definition offending (p : prism) : bool :=
  violates WestEast p || violates SouthNorth p || violates BottomTop p.

(** The observation points have one easting, northing and upward each. *)
Definition equal_sizes (c : coordinates) : Prop :=
  List.length (northing c) = List.length (easting c) /\
  List.length (upward c) = List.length (easting c).

(** An input [prism_gravity] carries through to the end: a registered tag,
    one density for each prism, a geometry the validator accepts unless the
    checks are disabled, and a progress bar only where one is installed. *)
Definition valid_input (ProgressBar : bool) (c : coordinates) (prisms : list prism)
  (density : list float) (field : string) (progressbar disable_checks : bool) : Prop :=
  In field registered_tags /\
  equal_sizes c /\
  List.length density = List.length prisms /\
  (disable_checks = false -> _check_prisms prisms = ret tt) /\
  (progressbar = true -> ProgressBar = true).

(** A point at a vertex of a prism, and a point strictly inside it. *)
Definition at_vertex (e n u : float) (p : prism) : bool :=
  ((e =? west p) || (e =? east p)) &&
  ((n =? south p) || (n =? north p)) &&
  ((u =? bottom p) || (u =? top p)).

Definition strictly_inside (e n u : float) (p : prism) : bool :=
  (west p <? e) && (e <? east p) &&
  (south p <? n) && (n <? north p) &&
  (bottom p <? u) && (u <? top p).

(** The accumulator of point [l] after the first [j] steps of its inner
    loop, started from [x0]. *)
Definition partial_sum (c : coordinates) (prisms : list prism) (density : list float)
  (k : kernel) (l j : nat) (x0 : float) : float :=
  fold_left (fun acc m => acc + eval k (call_at c prisms density l m)) (seq 0 j) x0.

(** A call the loop body can make: a point against one of the prisms. *)
Definition loop_call (c : coordinates) (prisms : list prism) (density : list float)
  (a : kernel_call) : Prop :=
  exists l m, (m < List.length prisms)%nat /\ a = call_at c prisms density l m.

(** What holds of the state of the parallel loop after the steps [done]:
    every point has taken as many inner steps as it was scheduled for, up to
    the number of prisms, its accumulator holds the partial sum of those
    steps, and every logged call is a call of the loop body. *)
Definition par_inv (c : coordinates) (prisms : list prism) (density : list float)
  (k : kernel) (x0 : float) (done : list nat) (st : par_state) : Prop :=
  let n_points := List.length (easting c) in
  let n_prisms := List.length prisms in
  List.length (par_out st) = n_points /\
  List.length (par_next st) = n_points /\
  (forall l, (l < n_points)%nat ->
     nth l (par_next st) n_prisms = Nat.min n_prisms (count_occ Nat.eq_dec done l) /\
     nth l (par_out st) nan
     = partial_sum c prisms density k l (nth l (par_next st) n_prisms) x0) /\
  Forall (loop_call c prisms density) (par_calls st).

(** The forward function [prism_gravity] selects. *)
Definition forward_func (parallel : bool) (schedule : list nat) :=
  if parallel then jit_prism_gravity_parallel schedule else jit_prism_gravity_serial.

(** [a + b] on two arrays of the same size. *)
Definition add_arrays (a b : list float) : list float :=
  map (fun xy => fst xy + snd xy) (combine a b).

(** Whether the scanner of a field flags a point against a prism, in terms
    of the three edge predicates: the two edge families across the axis of a
    diagonal component, the one family along the third axis of a
    non-diagonal one, nothing for the other fields. *)
Definition singular_for (on_easting on_northing on_upward : check_func)
  (field : string) : check_func := fun e n u p =>
  if String.eqb field "g_ee" then on_northing e n u p || on_upward e n u p
  else if String.eqb field "g_nn" then on_easting e n u p || on_upward e n u p
  else if String.eqb field "g_zz" then on_easting e n u p || on_northing e n u p
  else if String.eqb field "g_en" then on_upward e n u p
  else if String.eqb field "g_ez" then on_northing e n u p
  else if String.eqb field "g_nz" then on_easting e n u p
  else false.

(** Whether some observation point is flagged against some prism. *)
Definition any_singular (on_easting on_northing on_upward : check_func)
  (field : string) (c : coordinates) (prisms : list prism) : bool :=
  existsb (fun l =>
    existsb (fun m =>
      singular_for on_easting on_northing on_upward field
        (get (easting c) l) (get (northing c) l) (get (upward c) l) (row prisms m))
      (seq 0 (List.length prisms)))
    (seq 0 (List.length (easting c))).

(** The warnings of the singularity scan. *)
Definition scan_warnings (on_easting on_northing on_upward : check_func)
  (field : string) (c : coordinates) (prisms : list prism) : list warning :=
  if any_singular on_easting on_northing on_upward field c prisms
  then [SingularPointWarning] else [].

(** ** The edge predicates of [choclo] *)

Module Choclo.

(** Modelled from the spec: [is_point_on_easting_edge] belongs to the
    [choclo] package and its code is not in this repository.  Following
    section 4.4 (every vertex is singular for every tensor component, and
    each component is undefined on the edges running along the named axes),
    the point is on one of the four edges of the prism that run along the
    easting axis, vertices included. *)
Definition is_point_on_easting_edge : check_func := fun e n u p =>
  (west p <=? e) && (e <=? east p) &&
  ((n =? south p) || (n =? north p)) &&
  ((u =? bottom p) || (u =? top p)).

(** Modelled from the spec: [is_point_on_northing_edge] of [choclo], as
    above for the edges that run along the northing axis. *)
Definition is_point_on_northing_edge : check_func := fun e n u p =>
  ((e =? west p) || (e =? east p)) &&
  (south p <=? n) && (n <=? north p) &&
  ((u =? bottom p) || (u =? top p)).

(** Modelled from the spec: [is_point_on_upward_edge] of [choclo], as
    above for the edges that run along the upward axis. *)
Definition is_point_on_upward_edge : check_func := fun e n u p =>
  ((e =? west p) || (e =? east p)) &&
  ((n =? south p) || (n =? north p)) &&
  (bottom p <=? u) && (u <=? top p).

End Choclo.

(** ** A concrete setting to run the model in *)

Module Example.

(** A stand-in for the analytic kernels: the contribution of a prism is its
    density, whatever the point. *)
Definition density_kernel : kernel := fun _ _ _ _ d => d.

(** [prism_gravity] with the stand-in kernel under every tag, the edge
    predicates of [Choclo], and no progress bar installed. *)
Definition prism_gravity :=
  prism_gravity
    density_kernel density_kernel density_kernel density_kernel
    density_kernel density_kernel density_kernel
    density_kernel density_kernel density_kernel
    Choclo.is_point_on_easting_edge Choclo.is_point_on_northing_edge
    Choclo.is_point_on_upward_edge false.

Definition unit_cube : prism := mkPrism 0 1 0 1 0 1.
Definition shifted_cube : prism := mkPrism 2 3 0 1 0 1.
(** West and east swapped. *)
Definition bad_we_prism : prism := mkPrism 1 0 0 1 0 1.
(** South and north swapped. *)
Definition bad_sn_prism : prism := mkPrism 0 1 1 0 0 1.
(** A prism of zero volume: a square in the plane [easting = 0]. *)
Definition flat_prism : prism := mkPrism 0 0 0 1 0 1.

(** Three points one unit above the cubes. *)
Definition above : coordinates := mkCoordinates [0; 1; 2] [0; 0; 0] [2; 2; 2].
(** One point at the vertex (0, 0, 0). *)
Definition corner : coordinates := mkCoordinates [0] [0] [0].
(** One point at the centre of [unit_cube]. *)
Definition centre : coordinates := mkCoordinates [0.5] [0.5] [0.5].

(** The binary64 values written [0.1] and [0.2] in Python. *)
Definition tenth : float := 0x1.999999999999ap-4.
Definition fifth : float := 0x1.999999999999ap-3.

(** A schedule for [n_points] workers that take their steps in turn. *)
Definition round_robin (n_points n_prisms : nat) : list nat :=
  List.concat (repeat (seq 0 n_points) n_prisms).

End Example.

(** ** More vocabulary for the properties *)

(** An ordering the validator lets through: [lower > upper] is false, which
    is the case when [lower <= upper] and also when a bound is NaN. *)
Definition ordered_or_nan (lower upper : float) : bool :=
  (lower <=? upper) || is_nan lower || is_nan upper.

Definition passes_validator (p : prism) : bool :=
  ordered_or_nan (west p) (east p) &&
  ordered_or_nan (south p) (north p) &&
  ordered_or_nan (bottom p) (top p).

(** The sizes of the three coordinate arrays. *)
Definition sizes (c : coordinates) : list nat :=
  [List.length (easting c); List.length (northing c); List.length (upward c)].

(** The observation points of [c] followed by those of [c']. *)
Definition append_points (c c' : coordinates) : coordinates :=
  mkCoordinates (easting c ++ easting c') (northing c ++ northing c')
                (upward c ++ upward c').

(** A point in the open interior of an edge of the prism that runs along
    the easting, the northing or the upward axis. *)
Definition inside_easting_edge (e n u : float) (p : prism) : bool :=
  (west p <? e) && (e <? east p) &&
  ((n =? south p) || (n =? north p)) && ((u =? bottom p) || (u =? top p)).

Definition inside_northing_edge (e n u : float) (p : prism) : bool :=
  ((e =? west p) || (e =? east p)) &&
  (south p <? n) && (n <? north p) && ((u =? bottom p) || (u =? top p)).

Definition inside_upward_edge (e n u : float) (p : prism) : bool :=
  ((e =? west p) || (e =? east p)) && ((n =? south p) || (n =? north p)) &&
  (bottom p <? u) && (u <? top p).

(** ** The density function of the tesseroid example

    [dev/_downloads/.../tesseroid.py] defines a density that varies linearly
    with the radius, compiled with [numba.njit]. *)

Module Tesseroid.

Inductive error : Type :=
| ZeroDivisionError.

(** [density(radius)].  [mean_radius] is the global the script reads from
    the ellipsoid of the [boule] package; it is a parameter here.  Compiled
    code follows Python in raising on a division by zero. *)
Definition density (mean_radius : float) (radius : float) : error + float :=
  let top := mean_radius in
  let bottom := mean_radius - 10e3 in
  let density_top := 2670 in
  let density_bottom := 3000 in
  if (top - bottom) =? 0 then inl ZeroDivisionError
  else
    let slope := (density_top - density_bottom) / (top - bottom) in
    inr (slope * (radius - bottom) + density_bottom).

(** A mean radius of the Earth in metres, close to the one [boule] gives
    for the WGS84 ellipsoid (6371008.7714...). *)
Definition earth_mean_radius : float := 0x1.84db0315edd45p+22.

End Tesseroid.

(** * Properties *)

(** ** Facts about binary64 arithmetic

    Derived from the specification of the primitive operations in
    [FloatAxioms]. *)

Module FloatFacts.

Lemma SFcompare_antisym (x y : spec_float) :
  SFcompare y x = option_map CompOpp (SFcompare x y).
Proof.
  destruct x as [[]|[]| |[] mx ex], y as [[]|[]| |[] my ey]; simpl; try reflexivity;
    rewrite (Z.compare_antisym ex ey); destruct (ex ?= ey)%Z; simpl; try reflexivity;
    rewrite (Pos.compare_cont_antisym mx my Eq); simpl;
    try rewrite CompOpp_involutive; reflexivity.
Qed.

Lemma SFcompare_Eq_l (x y z : spec_float) :
  SFcompare x y = Some Eq -> SFcompare x z = SFcompare y z.
Proof.
  destruct x as [[]|[]| |sx mx ex], y as [[]|[]| |sy my ey]; simpl;
    try discriminate; try reflexivity;
    try (destruct sx; discriminate); try (destruct sy; discriminate).
  intros H.
  assert (sx = sy /\ ex = ey /\ mx = my) as (-> & -> & ->).
  { destruct sx, sy; try discriminate;
      destruct (ex ?= ey)%Z eqn:He; try discriminate;
      apply Z.compare_eq in He; subst;
      destruct (Pos.compare_cont Eq mx my) eqn:Hm; try discriminate;
      apply Pos.compare_eq in Hm; subst; auto. }
  reflexivity.
Qed.

Lemma SFcompare_Eq_r (x y z : spec_float) :
  SFcompare x y = Some Eq -> SFcompare z x = SFcompare z y.
Proof.
  intros H. rewrite (SFcompare_antisym x z), (SFcompare_antisym y z).
  now rewrite (SFcompare_Eq_l x y z H).
Qed.

Lemma eqb_compare (x y : float) :
  (x =? y) = true <-> SFcompare (Prim2SF x) (Prim2SF y) = Some Eq.
Proof.
  rewrite FloatAxioms.eqb_spec. unfold SFeqb.
  destruct (SFcompare _ _) as [[]|]; split; congruence.
Qed.

(** Values that compare equal can replace each other in a comparison. *)
Lemma eqb_leb_l (x y z : float) : (x =? y) = true -> (x <=? z) = (y <=? z).
Proof.
  intros H%eqb_compare. rewrite !leb_spec. unfold SFleb.
  now rewrite (SFcompare_Eq_l _ _ (Prim2SF z) H).
Qed.

Lemma eqb_leb_r (x y z : float) : (x =? y) = true -> (z <=? x) = (z <=? y).
Proof.
  intros H%eqb_compare. rewrite !leb_spec. unfold SFleb.
  now rewrite (SFcompare_Eq_r _ _ (Prim2SF z) H).
Qed.

Lemma eqb_sym (x y : float) : (x =? y) = (y =? x).
Proof.
  rewrite !FloatAxioms.eqb_spec. unfold SFeqb.
  rewrite (SFcompare_antisym (Prim2SF x) (Prim2SF y)).
  destruct (SFcompare (Prim2SF x) (Prim2SF y)) as [[]|]; reflexivity.
Qed.

Lemma eqb_leb (x y : float) : (x =? y) = true -> (x <=? y) = true.
Proof.
  intros H%eqb_compare. rewrite leb_spec. unfold SFleb. now rewrite H.
Qed.

Lemma ltb_eqb (x y : float) : (x <? y) = true -> (x =? y) = false.
Proof.
  rewrite ltb_spec, FloatAxioms.eqb_spec. unfold SFltb, SFeqb.
  destruct (SFcompare _ _) as [[]|]; congruence.
Qed.

Lemma leb_gtb (x y : float) : (x <=? y) = true -> gtb x y = false.
Proof.
  unfold gtb. rewrite ltb_spec, leb_spec. unfold SFltb, SFleb.
  rewrite (SFcompare_antisym (Prim2SF x) (Prim2SF y)).
  destruct (SFcompare (Prim2SF x) (Prim2SF y)) as [[]|]; simpl; congruence.
Qed.

(** Adding to [+0] is exact; only the sign of a zero can change. *)
Lemma add_zero_l_assoc (a b : float) : (0 + a) + b = (0 + a) + (0 + b).
Proof.
  apply Prim2SF_inj. rewrite !add_spec.
  change (Prim2SF 0) with (S754_zero false).
  destruct (Prim2SF a) as [[]|[]| |[]], (Prim2SF b) as [[]|[]| |[]]; reflexivity.
Qed.

Lemma add_zero_l_zero_r (a : float) : (0 + a) + 0 = 0 + a.
Proof.
  apply Prim2SF_inj. rewrite !add_spec.
  change (Prim2SF 0) with (S754_zero false).
  destruct (Prim2SF a) as [[]|[]| |[]]; reflexivity.
Qed.

Lemma add_zero_l_idem (a : float) : 0 + (0 + a) = 0 + a.
Proof.
  apply Prim2SF_inj. rewrite !add_spec.
  change (Prim2SF 0) with (S754_zero false).
  destruct (Prim2SF a) as [[]|[]| |[]]; reflexivity.
Qed.

(** Multiplying by [-1] flips the sign and rounds nothing.  The mantissa of
    [-1] is [2^52]: the product is shifted back by 52 places, exactly. *)
Lemma shr_1_iter_52 (m : positive) :
  SpecFloat.iter_pos shr_1 52
    (shr_record_of_loc (Z.pos (4503599627370496 * m)) loc_Exact)
  = {| shr_m := Z.pos m; shr_r := false; shr_s := false |}.
Proof. reflexivity. Qed.

Lemma Zdigits2_shift_52 (m : positive) :
  Zdigits2 (Z.pos (4503599627370496 * m)) = (Z.pos (digits2_pos m) + 52)%Z.
Proof. cbn [Pos.mul Zdigits2 digits2_pos]. lia. Qed.

Lemma shr_fexp_shift_52 (m : positive) (e : Z) :
  fexp prec emax (Z.pos (digits2_pos m) + e) = e ->
  shr_fexp prec emax (Z.pos (4503599627370496 * m)) (e + -52) loc_Exact
  = ({| shr_m := Z.pos m; shr_r := false; shr_s := false |}, e).
Proof.
  intros Hc. unfold shr_fexp. rewrite Zdigits2_shift_52.
  replace (Z.pos (digits2_pos m) + 52 + (e + -52))%Z
    with (Z.pos (digits2_pos m) + e)%Z by lia.
  rewrite Hc. replace (e - (e + -52))%Z with 52%Z by lia.
  unfold shr. apply pair_equal_spec. split; [exact (shr_1_iter_52 m) | lia].
Qed.

Lemma shr_fexp_canonical (m : positive) (e : Z) :
  fexp prec emax (Z.pos (digits2_pos m) + e) = e ->
  shr_fexp prec emax (Z.pos m) e loc_Exact
  = ({| shr_m := Z.pos m; shr_r := false; shr_s := false |}, e).
Proof.
  intros Hc. unfold shr_fexp. cbn [Zdigits2]. rewrite Hc, Z.sub_diag. reflexivity.
Qed.

Lemma SFmul_minus_one (x : spec_float) :
  valid_binary x = true ->
  SF64mul x (S754_finite true 4503599627370496 (-52)) = SFopp x.
Proof.
  destruct x as [s|s| |s m e]; simpl; intros Hv;
    try (destruct s; reflexivity); try reflexivity.
  unfold bounded, canonical_mantissa in Hv.
  apply andb_true_iff in Hv as [Hc He].
  apply Z.eqb_eq in Hc.
  unfold SF64mul, SFmul.
  rewrite Pos.mul_comm.
  replace (xorb s true) with (negb s) by (destruct s; reflexivity).
  unfold binary_round_aux.
  rewrite (shr_fexp_shift_52 m e Hc).
  cbn [shr_m loc_of_shr_record round_nearest_even].
  rewrite (shr_fexp_canonical m e Hc).
  cbn [shr_m]. rewrite He. reflexivity.
Qed.

Lemma mul_minus_one (x : float) : x * (-1) = - x.
Proof.
  apply Prim2SF_inj. rewrite mul_spec, opp_spec.
  change (Prim2SF (-1)) with (S754_finite true 4503599627370496 (-52)).
  apply SFmul_minus_one, Prim2SF_valid.
Qed.

End FloatFacts.

(** ** Arrays, masks and tuples *)

Section ArrayFacts.

Lemma in_tuple_In (field : string) (t : list string) :
  in_tuple field t = true <-> In field t.
Proof.
  unfold in_tuple. rewrite existsb_exists. split.
  - intros (s & Hs & E). apply String.eqb_eq in E. now subst.
  - intros H. exists field. split; [assumption | apply String.eqb_refl].
Qed.

Lemma select_map_filter {A : Type} (f : A -> bool) (a : list A) :
  select (map f a) a = filter f a.
Proof.
  induction a as [|x a IH]; simpl; [reflexivity|].
  rewrite IH. reflexivity.
Qed.

Lemma any_map_existsb {A : Type} (f : A -> bool) (a : list A) :
  any (map f a) = existsb f a.
Proof.
  unfold any. induction a as [|x a IH]; simpl; [reflexivity|].
  now rewrite IH.
Qed.

Lemma length_add_at (l : nat) (v : float) (out : list float) :
  List.length (add_at l v out) = List.length out.
Proof.
  revert l; induction out as [|x out IH]; intros [|l]; simpl; auto.
Qed.

Lemma nth_add_at_eq (l : nat) (v : float) (out : list float) (d : float) :
  (l < List.length out)%nat -> nth l (add_at l v out) d = nth l out d + v.
Proof.
  revert l; induction out as [|x out IH]; intros [|l] H; simpl in *;
    try lia; [reflexivity | apply IH; lia].
Qed.

Lemma nth_add_at_neq (i l : nat) (v : float) (out : list float) (d : float) :
  i <> l -> nth i (add_at l v out) d = nth i out d.
Proof.
  revert i l; induction out as [|x out IH]; intros [|i] [|l] H; simpl;
    try reflexivity; try congruence.
  apply IH. congruence.
Qed.

Lemma add_at_app (pre rest : list float) (x v : float) :
  add_at (List.length pre) v (pre ++ x :: rest) = pre ++ (x + v) :: rest.
Proof.
  induction pre as [|y pre IH]; simpl; [reflexivity | now rewrite IH].
Qed.

Lemma length_set_at (l v : nat) (a : list nat) :
  List.length (set_at l v a) = List.length a.
Proof.
  revert l; induction a as [|x a IH]; intros [|l]; simpl; auto.
Qed.

Lemma nth_set_at_eq (l v : nat) (a : list nat) (d : nat) :
  (l < List.length a)%nat -> nth l (set_at l v a) d = v.
Proof.
  revert l; induction a as [|x a IH]; intros [|l] H; simpl in *;
    try lia. apply IH; lia.
Qed.

Lemma nth_set_at_neq (i l v : nat) (a : list nat) (d : nat) :
  i <> l -> nth i (set_at l v a) d = nth i a d.
Proof.
  revert i l; induction a as [|x a IH]; intros [|i] [|l] H; simpl;
    try reflexivity; try congruence.
  apply IH. congruence.
Qed.

Lemma combine_fst_snd {A B : Type} (ps : list (A * B)) :
  combine (map fst ps) (map snd ps) = ps.
Proof.
  induction ps as [|[a b] ps IH]; simpl; [reflexivity | now rewrite IH].
Qed.

Lemma combine_snoc {A B : Type} (a : list A) (b : list B) (x : A) (y : B) :
  List.length b = List.length a ->
  combine (a ++ [x]) (b ++ [y]) = combine a b ++ [(x, y)].
Proof.
  revert b; induction a as [|x' a IH]; intros [|y' b] H; simpl in H;
    try discriminate; [reflexivity|].
  simpl. rewrite IH by congruence. reflexivity.
Qed.

End ArrayFacts.

(** ** The null-prism filter *)

Section NullPrismFilter.

(** The mask of the source marks exactly the null prisms, so the two
    arrays it selects are the surviving prisms and their densities. *)
Lemma select_survivors (prisms : list prism) (density : list float) :
  List.length density = List.length prisms ->
  let null_prisms :=
    set_true
      (map (fun p => (west p =? east p) || (south p =? north p) || (bottom p =? top p))
           prisms)
      (map (fun d => d =? 0) density) in
  select (map negb null_prisms) prisms = map fst (surviving prisms density) /\
  select (map negb null_prisms) density = map snd (surviving prisms density).
Proof.
  revert density.
  induction prisms as [|p prisms IH]; intros [|d density] H; simpl in H;
    try discriminate; try (split; reflexivity).
  injection H as H. specialize (IH density H). cbv zeta in IH.
  destruct IH as [IHp IHd].
  unfold surviving. cbn [map set_true select combine filter fst snd].
  fold (surviving prisms density).
  unfold null_prism.
  destruct (d =? 0); [rewrite orb_true_r|rewrite orb_false_r]; cbn [negb].
  - split; assumption.
  - destruct ((west p =? east p) || (south p =? north p) || (bottom p =? top p));
      cbn [negb map fst snd]; rewrite IHp, IHd; split; reflexivity.
Qed.

Lemma discard_null_prisms_spec (prisms : list prism) (density : list float) :
  List.length density = List.length prisms ->
  _discard_null_prisms prisms density
  = ret (map fst (surviving prisms density), map snd (surviving prisms density)).
Proof.
  intros H. unfold _discard_null_prisms, null_mask.
  rewrite H, Nat.eqb_refl.
  destruct (select_survivors prisms density H) as [-> ->]. reflexivity.
Qed.

Lemma discard_null_prisms_mismatch (prisms : list prism) (density : list float) :
  List.length density <> List.length prisms ->
  _discard_null_prisms prisms density = raise MaskIndexError.
Proof.
  intros H. unfold _discard_null_prisms, null_mask.
  apply Nat.eqb_neq in H. now rewrite H.
Qed.

Lemma surviving_not_null (prisms : list prism) (density : list float) (pd : prism * float) :
  In pd (surviving prisms density) -> null_prism (fst pd) (snd pd) = false.
Proof.
  unfold surviving. rewrite filter_In. intros [_ H].
  now apply negb_true_iff in H.
Qed.

(** Appending a null prism does not change the survivors. *)
Lemma surviving_app_null (prisms : list prism) (density : list float)
  (p : prism) (d : float) :
  List.length density = List.length prisms ->
  null_prism p d = true ->
  surviving (prisms ++ [p]) (density ++ [d]) = surviving prisms density.
Proof.
  intros H Hn. unfold surviving.
  rewrite combine_snoc by exact H.
  rewrite filter_app. cbn [combine filter fst snd]. rewrite Hn. cbn [negb].
  apply app_nil_r.
Qed.

End NullPrismFilter.

(** ** The accumulation engine *)

Section Engine.

Variable c : coordinates.
Variable prisms : list prism.
Variable density : list float.
Variable k : kernel.

Let n_points := List.length (easting c).
Let n_prisms := List.length prisms.

Lemma partial_sum_S (l j : nat) (x0 : float) :
  partial_sum c prisms density k l (S j) x0
  = partial_sum c prisms density k l j x0 + eval k (call_at c prisms density l j).
Proof.
  unfold partial_sum. rewrite seq_S, fold_left_app. reflexivity.
Qed.

(** *** The serial loops *)

Lemma inner_loop (l : nat) (ms : list nat) :
  forall (pre rest : list float) (x : float) (calls : list kernel_call),
    l = List.length pre ->
    fold_left (fun st m => accumulate c prisms density k l m st) ms
              (pre ++ x :: rest, calls)
    = (pre ++ fold_left (fun acc m => acc + eval k (call_at c prisms density l m)) ms x
           :: rest,
       calls ++ map (call_at c prisms density l) ms).
Proof.
  induction ms as [|m ms IH]; intros pre rest x calls Hl; simpl.
  - now rewrite app_nil_r.
  - unfold accumulate at 2. cbn [fst snd]. subst l.
    rewrite add_at_app, IH by reflexivity.
    now rewrite <- app_assoc.
Qed.

Lemma outer_loop (x0 : float) (n : nat) :
  forall (pre : list float) (calls : list kernel_call),
    fold_left (fun st l =>
        fold_left (fun st m => accumulate c prisms density k l m st)
                  (seq 0 n_prisms) st)
      (seq (List.length pre) n) (pre ++ repeat x0 n, calls)
    = (pre ++ map (fun l => partial_sum c prisms density k l n_prisms x0)
                  (seq (List.length pre) n),
       calls ++ flat_map (fun l => map (call_at c prisms density l) (seq 0 n_prisms))
                         (seq (List.length pre) n)).
Proof.
  induction n as [|n IH]; intros pre calls.
  - simpl. now rewrite !app_nil_r.
  - cbn [seq repeat fold_left map flat_map].
    rewrite inner_loop by reflexivity.
    fold (partial_sum c prisms density k (List.length pre) n_prisms x0).
    set (y := partial_sum c prisms density k (List.length pre) n_prisms x0).
    replace (pre ++ y :: repeat x0 n) with ((pre ++ [y]) ++ repeat x0 n)
      by (now rewrite <- app_assoc).
    replace (S (List.length pre)) with (List.length (pre ++ [y]))
      by (rewrite length_app; simpl; lia).
    rewrite IH. rewrite <- !app_assoc. reflexivity.
Qed.

Lemma jit_prism_gravity_serial_spec (x0 : float) :
  jit_prism_gravity_serial c prisms density k (repeat x0 n_points)
  = (map (fun l => partial_sum c prisms density k l n_prisms x0) (seq 0 n_points),
     flat_map (fun l => map (call_at c prisms density l) (seq 0 n_prisms))
              (seq 0 n_points)).
Proof.
  unfold jit_prism_gravity_serial.
  exact (outer_loop x0 n_points [] []).
Qed.

(** *** The parallel loop *)

Lemma par_inv_init (x0 : float) :
  par_inv c prisms density k x0 []
          (mkPar (repeat x0 n_points) (repeat 0%nat n_points) []).
Proof.
  unfold par_inv. cbv zeta. fold n_points n_prisms.
  cbn [par_out par_next par_calls].
  rewrite !repeat_length. repeat split; auto.
  - rewrite nth_repeat_lt by assumption. simpl. lia.
  - rewrite !nth_repeat_lt by assumption. reflexivity.
Qed.

Lemma par_inv_step (x0 : float) (done : list nat) (st : par_state) (l' : nat) :
  par_inv c prisms density k x0 done st ->
  par_inv c prisms density k x0 (done ++ [l']) (par_step c prisms density k st l').
Proof.
  unfold par_inv. cbv zeta. fold n_points n_prisms.
  intros (Hout & Hnext & Hpt & Hcalls).
  unfold par_step. fold n_prisms.
  destruct (Nat.ltb (nth l' (par_next st) n_prisms) n_prisms) eqn:Hlt.
  - apply Nat.ltb_lt in Hlt.
    assert (Hl' : (l' < n_points)%nat).
    { destruct (Nat.lt_ge_cases l' n_points) as [?|Hge]; [assumption|].
      rewrite nth_overflow in Hlt by lia. lia. }
    unfold accumulate. cbn [par_out par_next par_calls fst snd].
    rewrite length_add_at, length_set_at. repeat split; try assumption.
    + rewrite count_occ_app. cbn [count_occ].
      destruct (Nat.eq_dec l' l) as [->|Hne].
      * rewrite nth_set_at_eq by lia.
        destruct (Hpt l H) as [Hn _]. lia.
      * rewrite nth_set_at_neq by congruence.
        destruct (Hpt l H) as [Hn _]. lia.
    + destruct (Nat.eq_dec l' l) as [->|Hne].
      * rewrite nth_set_at_eq, nth_add_at_eq by lia.
        rewrite partial_sum_S. destruct (Hpt l H) as [_ ->]. reflexivity.
      * rewrite nth_set_at_neq, nth_add_at_neq by congruence.
        apply (Hpt l H).
    + apply Forall_app. split; [assumption|].
      constructor; [|constructor].
      exists l', (nth l' (par_next st) n_prisms). split; [exact Hlt | reflexivity].
  - apply Nat.ltb_ge in Hlt.
    repeat split; try assumption.
    + rewrite count_occ_app. cbn [count_occ].
      destruct (Hpt l H) as [Hn _].
      destruct (Nat.eq_dec l' l) as [->|Hne]; lia.
    + apply (Hpt l H).
Qed.

Lemma par_inv_run (x0 : float) (schedule : list nat) :
  par_inv c prisms density k x0 schedule
    (fold_left (par_step c prisms density k) schedule
               (mkPar (repeat x0 n_points) (repeat 0%nat n_points) [])).
Proof.
  induction schedule as [|l' schedule IH] using rev_ind.
  - apply par_inv_init.
  - rewrite fold_left_app. cbn [fold_left]. now apply par_inv_step.
Qed.

Lemma jit_prism_gravity_parallel_length (schedule : list nat) (x0 : float) :
  List.length (fst (jit_prism_gravity_parallel schedule c prisms density k
                                               (repeat x0 n_points)))
  = n_points.
Proof.
  unfold jit_prism_gravity_parallel. cbn [fst]. fold n_points.
  apply (par_inv_run x0 schedule).
Qed.

(** Under a complete schedule the parallel loop leaves in [out] what the
    serial loops leave. *)
Lemma jit_prism_gravity_parallel_spec (schedule : list nat) (x0 : float) :
  complete_schedule n_points n_prisms schedule ->
  fst (jit_prism_gravity_parallel schedule c prisms density k (repeat x0 n_points))
  = map (fun l => partial_sum c prisms density k l n_prisms x0) (seq 0 n_points).
Proof.
  intros [_ Hcount].
  unfold jit_prism_gravity_parallel. cbn [fst]. fold n_points.
  destruct (par_inv_run x0 schedule) as (Hout & _ & Hpt & _).
  fold n_points n_prisms in Hout, Hpt.
  apply (nth_ext _ _ nan nan).
  - now rewrite length_map, length_seq.
  - intros l Hl. rewrite Hout in Hl.
    destruct (Hpt l Hl) as [Hn ->].
    rewrite Hn, (Hcount l Hl), Nat.min_id.
    rewrite (nth_indep _ nan (partial_sum c prisms density k 0 n_prisms x0))
      by (now rewrite length_map, length_seq).
    rewrite (map_nth (fun l => partial_sum c prisms density k l n_prisms x0)).
    now rewrite seq_nth.
Qed.

(** *** The call log, for any output array *)

Lemma jit_prism_gravity_serial_calls (out : list float) :
  Forall (loop_call c prisms density) (snd (jit_prism_gravity_serial c prisms density k out)).
Proof.
  unfold jit_prism_gravity_serial, loop_call. fold n_prisms.
  assert (Hinner : forall l ms st,
             (forall m, In m ms -> (m < n_prisms)%nat) ->
             Forall (loop_call c prisms density) (snd st) ->
             Forall (loop_call c prisms density)
               (snd (fold_left (fun st m => accumulate c prisms density k l m st) ms st))).
  { intros l ms. induction ms as [|m ms IH]; intros st Hms Hst; [exact Hst|].
    cbn [fold_left]. apply IH; [intros; apply Hms; now right|].
    unfold accumulate. cbn [snd]. apply Forall_app. split; [exact Hst|].
    constructor; [|constructor]. exists l, m. split; [|reflexivity].
    apply Hms. now left. }
  assert (Houter : forall ls st,
             Forall (loop_call c prisms density) (snd st) ->
             Forall (loop_call c prisms density)
               (snd (fold_left (fun st l =>
                       fold_left (fun st m => accumulate c prisms density k l m st)
                                 (seq 0 n_prisms) st) ls st))).
  { intros ls. induction ls as [|l ls IH]; intros st Hst; [exact Hst|].
    cbn [fold_left]. apply IH, Hinner; [|exact Hst].
    intros m Hm. apply in_seq in Hm. lia. }
  apply Houter. constructor.
Qed.

Lemma jit_prism_gravity_parallel_calls (schedule : list nat) (out : list float) :
  Forall (loop_call c prisms density) (snd (jit_prism_gravity_parallel schedule c prisms density k out)).
Proof.
  unfold jit_prism_gravity_parallel, loop_call. cbn [snd]. fold n_prisms.
  assert (H : forall st, Forall (loop_call c prisms density) (par_calls st) ->
              Forall (loop_call c prisms density)
                (par_calls (fold_left (par_step c prisms density k) schedule st))).
  { induction schedule as [|l s IH]; intros st Hst; [exact Hst|].
    cbn [fold_left]. apply IH. unfold par_step. fold n_prisms.
    destruct (Nat.ltb (nth l (par_next st) n_prisms) n_prisms) eqn:Hlt; [|exact Hst].
    apply Nat.ltb_lt in Hlt. unfold accumulate. cbn [par_calls fst snd].
    apply Forall_app. split; [exact Hst|].
    constructor; [|constructor]. now exists l, (nth l (par_next st) n_prisms). }
  apply H. constructor.
Qed.

End Engine.

(** *** Sums over the surviving prisms *)

Section RawSums.

Variable c : coordinates.
Variable k : kernel.

Lemma partial_sum_pairs (l : nat) (ps : list (prism * float)) :
  forall (pre : list (prism * float)) (x : float),
    fold_left
      (fun acc m =>
         acc + eval k (call_at c (map fst (pre ++ ps)) (map snd (pre ++ ps)) l m))
      (seq (List.length pre) (List.length ps)) x
    = fold_left
        (fun acc pd =>
           acc + k (get (easting c) l) (get (northing c) l) (get (upward c) l)
                   (fst pd) (snd pd))
        ps x.
Proof.
  induction ps as [|pd ps IH]; intros pre x; [reflexivity|].
  cbn [List.length seq fold_left].
  replace (eval k (call_at c (map fst (pre ++ pd :: ps)) (map snd (pre ++ pd :: ps))
                           l (List.length pre)))
    with (k (get (easting c) l) (get (northing c) l) (get (upward c) l)
            (fst pd) (snd pd)).
  - replace (pre ++ pd :: ps) with ((pre ++ [pd]) ++ ps) by (now rewrite <- app_assoc).
    replace (S (List.length pre)) with (List.length (pre ++ [pd]))
      by (rewrite length_app; simpl; lia).
    apply IH.
  - unfold eval, call_at, row, get. cbn [call_easting call_northing call_upward
                                           call_prism call_density].
    rewrite !map_app. cbn [map].
    rewrite <- (length_map fst pre) at 1. rewrite nth_middle.
    rewrite <- (length_map snd pre). rewrite nth_middle. reflexivity.
Qed.

Lemma partial_sum_surviving (l : nat) (ps : list (prism * float)) :
  partial_sum c (map fst ps) (map snd ps) k l (List.length (map fst ps)) 0
  = raw_sum k (get (easting c) l) (get (northing c) l) (get (upward c) l) ps.
Proof.
  unfold partial_sum, raw_sum. rewrite length_map.
  exact (partial_sum_pairs l ps [] 0).
Qed.

(** On the surviving prisms, and from an array of zeros, either forward
    function leaves the raw sums of the specification. *)
Lemma forward_func_spec (parallel : bool) (schedule : list nat)
  (ps : list (prism * float)) :
  (parallel = true ->
   complete_schedule (List.length (easting c)) (List.length ps) schedule) ->
  fst (forward_func parallel schedule c (map fst ps) (map snd ps) k
                    (zeros (List.length (easting c))))
  = raw_sums k c ps.
Proof.
  intros Hs. unfold forward_func, zeros, raw_sums.
  destruct parallel.
  - rewrite jit_prism_gravity_parallel_spec
      by (rewrite length_map; now apply Hs).
    apply map_ext. intros l. apply partial_sum_surviving.
  - rewrite jit_prism_gravity_serial_spec. cbn [fst].
    apply map_ext. intros l. apply partial_sum_surviving.
Qed.

Lemma forward_func_length (parallel : bool) (schedule : list nat)
  (prisms : list prism) (density : list float) :
  List.length (fst (forward_func parallel schedule c prisms density k
                                 (zeros (List.length (easting c)))))
  = List.length (easting c).
Proof.
  unfold forward_func, zeros. destruct parallel.
  - apply jit_prism_gravity_parallel_length.
  - rewrite jit_prism_gravity_serial_spec. cbn [fst].
    now rewrite length_map, length_seq.
Qed.

(** Every kernel evaluation is made on a surviving prism and its density. *)
Lemma forward_func_calls (parallel : bool) (schedule : list nat)
  (ps : list (prism * float)) (out : list float) :
  Forall (fun a => In (call_prism a, call_density a) ps)
    (snd (forward_func parallel schedule c (map fst ps) (map snd ps) k out)).
Proof.
  assert (H : Forall (loop_call c (map fst ps) (map snd ps))
                (snd (forward_func parallel schedule c (map fst ps) (map snd ps) k out))).
  { unfold forward_func. destruct parallel.
    - apply jit_prism_gravity_parallel_calls.
    - apply jit_prism_gravity_serial_calls. }
  eapply Forall_impl; [|exact H].
  intros a (l & m & Hm & ->). rewrite length_map in Hm.
  unfold call_at, row, get. cbn [call_prism call_density].
  rewrite (nth_indep (map fst ps) default_prism (fst (default_prism, nan)))
    by (now rewrite length_map).
  rewrite (nth_indep (map snd ps) nan (snd (default_prism, nan)))
    by (now rewrite length_map).
  rewrite !map_nth, <- surjective_pairing. now apply nth_In.
Qed.

(** Without prisms nothing is added, whatever the schedule. *)
Lemma forward_func_no_prisms (parallel : bool) (schedule : list nat)
  (out : list float) :
  forward_func parallel schedule c [] [] k out = (out, []).
Proof.
  unfold forward_func. destruct parallel.
  - unfold jit_prism_gravity_parallel.
    assert (H : forall st, fold_left (par_step c [] [] k) schedule st = st).
    { induction schedule as [|l s IH]; intros st; [reflexivity|].
      cbn [fold_left]. unfold par_step at 2. cbn [List.length Nat.ltb Nat.leb].
      apply IH. }
    now rewrite H.
  - unfold jit_prism_gravity_serial. cbn [List.length seq].
    induction (seq 0 (List.length (easting c))) as [|l ls IH]; [reflexivity|].
    cbn [fold_left]. exact IH.
Qed.

End RawSums.

(** ** The model validator *)

Section Validator.

Lemma check_prisms_first_violated (prisms : list prism) :
  _check_prisms prisms
  = match first_violated prisms with
    | Some cst => raise (InvalidGeometry (geometry_message cst prisms))
    | None => ret tt
    end.
Proof.
  unfold _check_prisms, first_violated, geometry_message.
  change (map (fun p => gtb (west p) (east p)) prisms)
    with (map (violates WestEast) prisms).
  change (map (fun p => gtb (south p) (north p)) prisms)
    with (map (violates SouthNorth) prisms).
  change (map (fun p => gtb (bottom p) (top p)) prisms)
    with (map (violates BottomTop) prisms).
  rewrite !any_map_existsb, !select_map_filter. cbn [find].
  destruct (existsb (violates WestEast) prisms); [reflexivity|].
  destruct (existsb (violates SouthNorth) prisms); [reflexivity|].
  destruct (existsb (violates BottomTop) prisms); reflexivity.
Qed.

Lemma first_violated_None (prisms : list prism) :
  first_violated prisms = None <->
  forall p, In p prisms -> forall cst, violates cst p = false.
Proof.
  unfold first_violated. cbn [find]. split.
  - intros H p Hp cst.
    destruct (existsb (violates WestEast) prisms) eqn:E1; [discriminate|].
    destruct (existsb (violates SouthNorth) prisms) eqn:E2; [discriminate|].
    destruct (existsb (violates BottomTop) prisms) eqn:E3; [discriminate|].
    destruct cst;
      [ clear E2 E3; rename E1 into E | clear E1 E3; rename E2 into E
      | clear E1 E2; rename E3 into E ];
      (destruct (violates _ p) eqn:V; [|reflexivity]);
      (assert (X : existsb (violates _) prisms = true)
         by (apply existsb_exists; exists p; split; [exact Hp | exact V]));
      congruence.
  - intros H.
    assert (E : forall cst, existsb (violates cst) prisms = false).
    { intros cst. destruct (existsb (violates cst) prisms) eqn:E; [|reflexivity].
      apply existsb_exists in E as (p & Hp & V).
      rewrite (H p Hp cst) in V. discriminate. }
    now rewrite !E.
Qed.

Lemma check_prisms_ok (prisms : list prism) :
  _check_prisms prisms = ret tt <->
  forall p, In p prisms -> forall cst, violates cst p = false.
Proof.
  rewrite check_prisms_first_violated, <- first_violated_None.
  destruct (first_violated prisms); split; intros H;
    try discriminate; reflexivity.
Qed.

Lemma well_ordered_violates (p : prism) (cst : constraint) :
  well_ordered p = true -> violates cst p = false.
Proof.
  unfold well_ordered. intros H.
  apply andb_true_iff in H as [H Hbt]. apply andb_true_iff in H as [Hwe Hsn].
  destruct cst; cbn [violates]; now apply FloatFacts.leb_gtb.
Qed.

Lemma check_prisms_well_ordered (prisms : list prism) :
  Forall (fun p => well_ordered p = true) prisms -> _check_prisms prisms = ret tt.
Proof.
  intros H. apply check_prisms_ok. intros p Hp cst.
  apply well_ordered_violates. rewrite Forall_forall in H. now apply H.
Qed.

Lemma invalid_lines_Repr (label : string) (bad : list prism) (p : prism) :
  In (Repr p) (invalid_lines label bad) <-> In p bad.
Proof.
  unfold invalid_lines. rewrite in_flat_map. split.
  - intros (q & Hq & [E|[E|[E|[]]]]); try discriminate.
    injection E as <-. exact Hq.
  - intros H. exists p. split; [exact H | simpl; auto].
Qed.

Lemma geometry_message_Repr (cst : constraint) (prisms : list prism) (p : prism) :
  In (Repr p) (geometry_message cst prisms) <->
  In p prisms /\ violates cst p = true.
Proof.
  unfold geometry_message. cbn [In].
  rewrite invalid_lines_Repr, filter_In.
  split; [intros [E|[E|H]]; try discriminate; exact H | auto].
Qed.

End Validator.

(** ** The public function, step by step *)

Section Gravity.

Variables gravity_pot gravity_e gravity_n gravity_u : kernel.
Variables gravity_ee gravity_nn gravity_uu : kernel.
Variables gravity_en gravity_eu gravity_nu : kernel.
Variables on_easting on_northing on_upward : check_func.
Variable ProgressBar : bool.

Local Abbreviation registry :=
  (FIELDS_get gravity_pot gravity_e gravity_n gravity_u gravity_ee gravity_nn
              gravity_uu gravity_en gravity_eu gravity_nu).
Local Abbreviation gravity :=
  (prism_gravity gravity_pot gravity_e gravity_n gravity_u gravity_ee gravity_nn
                 gravity_uu gravity_en gravity_eu gravity_nu
                 on_easting on_northing on_upward ProgressBar).
Local Abbreviation body :=
  (prism_gravity_body on_easting on_northing on_upward ProgressBar).

Lemma registry_registered (field : string) :
  In field registered_tags -> exists k, registry field = Some k.
Proof.
  unfold registered_tags. cbn [In].
  intros H; repeat (destruct H as [<-|H]; [eexists; reflexivity|]); destruct H.
Qed.

Lemma registry_unknown (field : string) :
  ~ In field registered_tags -> registry field = None.
Proof.
  intros H. unfold FIELDS_get, FIELDS. cbn [find fst].
  repeat match goal with
         | |- context [String.eqb field ?t] =>
             destruct (String.eqb_spec field t) as [E|_];
             [exfalso; apply H; rewrite E; unfold registered_tags; simpl; tauto|]
         end.
  reflexivity.
Qed.

Lemma broadcast_equal_sizes (c : coordinates) :
  equal_sizes c -> broadcast_size c = Some (List.length (easting c)).
Proof.
  intros [Hn Hu]. unfold broadcast_size. rewrite Hn, Hu.
  cbn [filter]. destruct (Nat.eqb_spec (List.length (easting c)) 1) as [E|E]; cbn [negb].
  - now rewrite E.
  - cbn [forallb]. now rewrite Nat.eqb_refl.
Qed.

(** The scanner warns exactly when a point is flagged against a prism. *)
Lemma check_singular_points_spec (c : coordinates) (prisms : list prism)
  (field : string) :
  _check_singular_points on_easting on_northing on_upward c prisms field
  = if any_singular on_easting on_northing on_upward field c prisms
    then warn SingularPointWarning else ret tt.
Proof.
  unfold _check_singular_points, any_singular, singular_for,
    _any_singular_point_diagonal, _any_singular_point_non_diagonal.
  destruct (String.eqb field "g_ee"); [reflexivity|].
  destruct (String.eqb field "g_nn"); [reflexivity|].
  destruct (String.eqb field "g_zz"); [reflexivity|].
  destruct (String.eqb field "g_en"); [reflexivity|].
  destruct (String.eqb field "g_ez"); [reflexivity|].
  destruct (String.eqb field "g_nz"); [reflexivity|].
  assert (E : existsb (fun _ : nat => existsb (fun _ : nat => false)
                                          (seq 0 (List.length prisms)))
                (seq 0 (List.length (easting c))) = false).
  { assert (E0 : forall ms : list nat, existsb (fun _ => false) ms = false)
      by (induction ms as [|m ms IHm]; [reflexivity | exact IHm]).
    induction (seq 0 (List.length (easting c))) as [|l ls IH]; [reflexivity|].
    cbn [existsb]. now rewrite IH, E0. }
  now rewrite E.
Qed.

Lemma sanity_checks_pass (c : coordinates) (prisms : list prism)
  (density : list float) (field : string) :
  List.length density = List.length prisms ->
  _check_prisms prisms = ret tt ->
  sanity_checks on_easting on_northing on_upward c prisms density field
  = (scan_warnings on_easting on_northing on_upward field c prisms, inr tt).
Proof.
  intros Hd Hg. unfold sanity_checks, scan_warnings.
  rewrite Hd, Nat.eqb_refl, Hg, check_singular_points_spec.
  destruct (any_singular _ _ _ field c prisms); reflexivity.
Qed.

(** An input that passes every gate reaches the forward function on the
    surviving prisms, and its result is normalised and returned. *)
Lemma prism_gravity_valid (schedule : list nat) (c : coordinates)
  (prisms : list prism) (density : list float) (field : string) (k : kernel)
  (parallel progressbar disable_checks : bool) :
  valid_input ProgressBar c prisms density field progressbar disable_checks ->
  registry field = Some k ->
  let ps := surviving prisms density in
  let r := forward_func parallel schedule c (map fst ps) (map snd ps) k
                        (zeros (List.length (easting c))) in
  gravity schedule c prisms density field parallel progressbar disable_checks
  = mkRun (inr (normalize field (fst r)))
          (if disable_checks then []
           else scan_warnings on_easting on_northing on_upward field c prisms)
          (snd r).
Proof.
  intros (_ & Hc & Hd & Hg & Hp) Hk ps r.
  unfold prism_gravity. rewrite Hk. unfold prism_gravity_body.
  rewrite (broadcast_equal_sizes c Hc).
  rewrite (discard_null_prisms_spec prisms density Hd).
  fold ps. fold (forward_func parallel schedule).
  assert (Hbar : progressbar && negb ProgressBar = false).
  { destruct progressbar; [|reflexivity]. now rewrite Hp. }
  rewrite Hbar.
  destruct disable_checks.
  - unfold bind, ret. fold r. destruct r as [result calls]. reflexivity.
  - rewrite (sanity_checks_pass c prisms density field Hd (Hg eq_refl)).
    unfold bind, ret. fold r. destruct r as [result calls].
    cbn [fst snd]. now rewrite !app_nil_r.
Qed.

(** Whatever the input and the flags, a kernel is only ever evaluated on a
    surviving prism and its density. *)
Lemma prism_gravity_calls (schedule : list nat) (c : coordinates)
  (prisms : list prism) (density : list float) (field : string)
  (parallel progressbar disable_checks : bool) :
  Forall (fun a => In (call_prism a, call_density a) (surviving prisms density))
    (kernel_calls
       (gravity schedule c prisms density field parallel progressbar disable_checks)).
Proof.
  unfold prism_gravity.
  destruct (registry field) as [k|]; [|constructor].
  unfold prism_gravity_body.
  destruct (broadcast_size c) as [size|]; [|constructor].
  destruct (if disable_checks then ret tt
            else sanity_checks on_easting on_northing on_upward c prisms density field)
    as [ws [e|[]]]; cbn [bind]; [constructor|].
  destruct (Nat.eq_dec (List.length density) (List.length prisms)) as [Hd|Hd].
  - rewrite (discard_null_prisms_spec prisms density Hd). cbn [bind ret].
    destruct (progressbar && negb ProgressBar); cbn [bind raise ret]; [constructor|].
    fold (forward_func parallel schedule).
    pose proof (forward_func_calls c k parallel schedule (surviving prisms density)
                                   (zeros size)) as H.
    destruct (forward_func parallel schedule c _ _ k (zeros size)) as [result calls].
    exact H.
  - rewrite (discard_null_prisms_mismatch prisms density Hd). constructor.
Qed.

(** When the sanity checks pass, the warnings are those of the scan, even
    if the call fails later for want of a progress bar. *)
Lemma prism_gravity_warnings_checked (schedule : list nat) (c : coordinates)
  (prisms : list prism) (density : list float) (field : string)
  (parallel progressbar : bool) :
  In field registered_tags ->
  equal_sizes c ->
  List.length density = List.length prisms ->
  _check_prisms prisms = ret tt ->
  warnings (gravity schedule c prisms density field parallel progressbar false)
  = scan_warnings on_easting on_northing on_upward field c prisms.
Proof.
  intros Hf Hc Hd Hg.
  destruct (registry_registered field Hf) as [k Hk].
  unfold prism_gravity. rewrite Hk. unfold prism_gravity_body.
  rewrite (broadcast_equal_sizes c Hc).
  rewrite (sanity_checks_pass c prisms density field Hd Hg).
  rewrite (discard_null_prisms_spec prisms density Hd).
  cbn [bind ret].
  destruct (progressbar && negb ProgressBar); cbn [bind raise ret].
  - cbn [warnings]. rewrite ?app_nil_r. reflexivity.
  - destruct (if parallel then _ else _) as [result calls].
    unfold ret. cbn [warnings app]. rewrite ?app_nil_r. reflexivity.
Qed.

(** No warning has another source than the scan. *)
Lemma prism_gravity_warnings_cases (schedule : list nat) (c : coordinates)
  (prisms : list prism) (density : list float) (field : string)
  (parallel progressbar disable_checks : bool) :
  warnings (gravity schedule c prisms density field parallel progressbar disable_checks)
  = [] \/
  warnings (gravity schedule c prisms density field parallel progressbar disable_checks)
  = scan_warnings on_easting on_northing on_upward field c prisms.
Proof.
  unfold prism_gravity.
  destruct (registry field) as [k|]; [|now left].
  unfold prism_gravity_body.
  destruct (broadcast_size c) as [size|]; [|now left].
  assert (Hw : forall (ws : list warning)
                 (rest : M (list float * list kernel_call)),
             fst rest = [] ->
             warnings (let (ws', r) := (let (ws0, r0) := rest in (ws ++ ws0, r0)) in
                       match r with
                       | inl e => mkRun (inl e) ws' []
                       | inr (result, calls) => mkRun (inr result) ws' calls
                       end) = ws).
  { intros ws [ws0 [e|[result calls]]] E; cbn [fst] in E; subst ws0;
      cbn [warnings]; apply app_nil_r. }
  assert (Hrest :
             fst (pd <- _discard_null_prisms prisms density ;;
                  (let (prisms0, density0) := pd in
                   (if progressbar && negb ProgressBar
                    then raise MissingProgressDependency else ret tt) ;;
                   (let (result, calls) :=
                      (if parallel then jit_prism_gravity_parallel schedule
                       else jit_prism_gravity_serial)
                        c prisms0 density0 k (zeros size) in
                    ret (normalize field result, calls)))) = []).
  { unfold _discard_null_prisms.
    destruct (null_mask prisms density); [|reflexivity].
    cbn [bind ret].
    destruct (progressbar && negb ProgressBar); cbn [bind raise ret]; [reflexivity|].
    destruct (if parallel then _ else _) as [result calls]. reflexivity. }
  destruct disable_checks.
  - left. cbn [bind ret]. apply (Hw []). apply Hrest.
  - unfold sanity_checks.
    destruct (Nat.eqb (List.length density) (List.length prisms)); [|now left].
    cbn [bind ret]. rewrite check_prisms_first_violated.
    destruct (first_violated prisms); [now left|].
    cbn [bind ret]. rewrite check_singular_points_spec. unfold scan_warnings.
    destruct (any_singular on_easting on_northing on_upward field c prisms).
    + right. cbn [bind warn app]. apply (Hw [SingularPointWarning]). apply Hrest.
    + left. cbn [bind ret app]. apply (Hw []). apply Hrest.
Qed.

End Gravity.

(** ** Unit and sign normalisation *)

Section Normalizer.

(** The three updates of the source amount to the rule of the tag, applied
    to every element: the tuples of the second and third update share no
    tag, so at most one scaling takes place, after the sign flip. *)
Lemma normalize_spec (field : string) (result : list float) :
  normalize field result = map (spec_normalize field) result.
Proof.
  unfold normalize, spec_normalize, sign_flipped, unit_scale, tensor_tags.
  destruct (in_tuple field ["g_e"; "g_n"; "g_z"]) eqn:Hb.
  - assert (Hc : in_tuple field ["g_ee"; "g_nn"; "g_zz"; "g_en"; "g_ez"; "g_nz"] = false).
    { apply in_tuple_In in Hb. cbn [In] in Hb.
      destruct Hb as [<-|[<-|[<-|[]]]]; reflexivity. }
    rewrite Hc.
    destruct (in_tuple field ["g_z"; "g_ez"; "g_nz"]).
    + rewrite map_map. apply map_ext. intros x.
      now rewrite FloatFacts.mul_minus_one.
    + reflexivity.
  - destruct (in_tuple field ["g_ee"; "g_nn"; "g_zz"; "g_en"; "g_ez"; "g_nz"]);
      destruct (in_tuple field ["g_z"; "g_ez"; "g_nz"]).
    + rewrite map_map. apply map_ext. intros x.
      now rewrite FloatFacts.mul_minus_one.
    + reflexivity.
    + apply map_ext. intros x. apply FloatFacts.mul_minus_one.
    + symmetry. apply map_id.
Qed.

(** The rule of each registered tag, spelled out. *)
Lemma spec_normalize_table (raw : float) :
  spec_normalize "potential" raw = raw /\
  spec_normalize "g_e" raw = raw * 1e5 /\
  spec_normalize "g_n" raw = raw * 1e5 /\
  spec_normalize "g_z" raw = (- raw) * 1e5 /\
  spec_normalize "g_ee" raw = raw * 1e9 /\
  spec_normalize "g_nn" raw = raw * 1e9 /\
  spec_normalize "g_zz" raw = raw * 1e9 /\
  spec_normalize "g_en" raw = raw * 1e9 /\
  spec_normalize "g_ez" raw = (- raw) * 1e9 /\
  spec_normalize "g_nz" raw = (- raw) * 1e9.
Proof. repeat split; reflexivity. Qed.

(** A zero stays a zero, of one sign or the other. *)
Lemma spec_normalize_zero (field : string) :
  (spec_normalize field 0 =? 0) = true.
Proof.
  unfold spec_normalize, sign_flipped, unit_scale.
  destruct (in_tuple field ["g_z"; "g_ez"; "g_nz"]);
    destruct (in_tuple field ["g_e"; "g_n"; "g_z"]);
    destruct (in_tuple field tensor_tags); reflexivity.
Qed.

End Normalizer.

(** ** The edge predicates at a vertex and in the interior *)

Section ChocloFacts.

Lemma between_of_eqb (x a b : float) :
  (x =? a) || (x =? b) = true -> (a <=? b) = true ->
  (a <=? x) && (x <=? b) = true.
Proof.
  intros H Hab. apply orb_true_iff in H as [H|H]; apply andb_true_iff; split.
  - apply FloatFacts.eqb_leb. now rewrite FloatFacts.eqb_sym.
  - now rewrite (FloatFacts.eqb_leb_l x a b H).
  - now rewrite (FloatFacts.eqb_leb_r x b a H).
  - now apply FloatFacts.eqb_leb.
Qed.

Lemma outside_of_ltb (x a b : float) :
  (a <? x) = true -> (x <? b) = true -> (x =? a) || (x =? b) = false.
Proof.
  intros Ha Hb. apply orb_false_iff. split.
  - rewrite FloatFacts.eqb_sym. now apply FloatFacts.ltb_eqb.
  - now apply FloatFacts.ltb_eqb.
Qed.

(** A vertex of a well-ordered prism lies on its edges of every direction. *)
Lemma vertex_on_edges (e n u : float) (p : prism) :
  well_ordered p = true -> at_vertex e n u p = true ->
  Choclo.is_point_on_easting_edge e n u p = true /\
  Choclo.is_point_on_northing_edge e n u p = true /\
  Choclo.is_point_on_upward_edge e n u p = true.
Proof.
  unfold well_ordered, at_vertex. intros Hw Hv.
  apply andb_true_iff in Hw as [Hw Hbt]. apply andb_true_iff in Hw as [Hwe Hsn].
  apply andb_true_iff in Hv as [Hv Hu]. apply andb_true_iff in Hv as [He Hn].
  pose proof (between_of_eqb e _ _ He Hwe) as Be.
  pose proof (between_of_eqb n _ _ Hn Hsn) as Bn.
  pose proof (between_of_eqb u _ _ Hu Hbt) as Bu.
  unfold Choclo.is_point_on_easting_edge, Choclo.is_point_on_northing_edge,
    Choclo.is_point_on_upward_edge.
  rewrite He, Hn, Hu.
  apply andb_true_iff in Be as [-> ->].
  apply andb_true_iff in Bn as [-> ->].
  apply andb_true_iff in Bu as [-> ->].
  repeat split; reflexivity.
Qed.

Lemma vertex_singular (field : string) (e n u : float) (p : prism) :
  In field tensor_tags ->
  well_ordered p = true -> at_vertex e n u p = true ->
  singular_for Choclo.is_point_on_easting_edge Choclo.is_point_on_northing_edge
               Choclo.is_point_on_upward_edge field e n u p = true.
Proof.
  intros Hf Hw Hv.
  destruct (vertex_on_edges e n u p Hw Hv) as (He & Hn & Hu).
  unfold tensor_tags in Hf. cbn [In] in Hf.
  destruct Hf as [<-|[<-|[<-|[<-|[<-|[<-|[]]]]]]];
    unfold singular_for; cbn [String.eqb Ascii.eqb Bool.eqb];
    rewrite ?He, ?Hn, ?Hu; reflexivity.
Qed.

(** A point strictly inside a prism lies on none of its edges. *)
Lemma inside_off_edges (e n u : float) (p : prism) :
  strictly_inside e n u p = true ->
  Choclo.is_point_on_easting_edge e n u p = false /\
  Choclo.is_point_on_northing_edge e n u p = false /\
  Choclo.is_point_on_upward_edge e n u p = false.
Proof.
  unfold strictly_inside. intros H.
  apply andb_true_iff in H as [H Hu2]. apply andb_true_iff in H as [H Hu1].
  apply andb_true_iff in H as [H Hn2]. apply andb_true_iff in H as [H Hn1].
  apply andb_true_iff in H as [He1 He2].
  pose proof (outside_of_ltb e _ _ He1 He2) as Oe.
  pose proof (outside_of_ltb n _ _ Hn1 Hn2) as On.
  unfold Choclo.is_point_on_easting_edge, Choclo.is_point_on_northing_edge,
    Choclo.is_point_on_upward_edge.
  rewrite Oe, On. cbn [andb]. rewrite !andb_false_r. cbn [andb].
  repeat split; reflexivity.
Qed.

Lemma inside_not_singular (field : string) (e n u : float) (p : prism) :
  strictly_inside e n u p = true ->
  singular_for Choclo.is_point_on_easting_edge Choclo.is_point_on_northing_edge
               Choclo.is_point_on_upward_edge field e n u p = false.
Proof.
  intros H. destruct (inside_off_edges e n u p H) as (He & Hn & Hu).
  unfold singular_for. rewrite He, Hn, Hu. cbn [orb].
  repeat match goal with |- context [if ?b then _ else _] => destruct b end;
    reflexivity.
Qed.

(** The scan finds something exactly when some pair is flagged. *)
Lemma any_singular_true (ce cn cu : check_func) (field : string)
  (c : coordinates) (prisms : list prism) (l m : nat) :
  (l < List.length (easting c))%nat -> (m < List.length prisms)%nat ->
  singular_for ce cn cu field
    (get (easting c) l) (get (northing c) l) (get (upward c) l) (row prisms m) = true ->
  any_singular ce cn cu field c prisms = true.
Proof.
  intros Hl Hm H. unfold any_singular.
  apply existsb_exists. exists l. split; [apply in_seq; lia|].
  apply existsb_exists. exists m. split; [apply in_seq; lia | exact H].
Qed.

Lemma any_singular_false (ce cn cu : check_func) (field : string)
  (c : coordinates) (prisms : list prism) :
  (forall l m, (l < List.length (easting c))%nat -> (m < List.length prisms)%nat ->
     singular_for ce cn cu field
       (get (easting c) l) (get (northing c) l) (get (upward c) l) (row prisms m)
     = false) ->
  any_singular ce cn cu field c prisms = false.
Proof.
  intros H. unfold any_singular.
  destruct (existsb _ (seq 0 (List.length (easting c)))) eqn:E; [|reflexivity].
  apply existsb_exists in E as (l & Hl & E).
  apply existsb_exists in E as (m & Hm & E).
  apply in_seq in Hl, Hm. rewrite H in E by lia. discriminate.
Qed.

(** The four fields that are not tensor components are never scanned. *)
Lemma not_scanned (ce cn cu : check_func) (field : string) :
  In field ["potential"; "g_e"; "g_n"; "g_z"] ->
  forall e n u p, singular_for ce cn cu field e n u p = false.
Proof.
  cbn [In]. intros [<-|[<-|[<-|[<-|[]]]]] e n u p; reflexivity.
Qed.

End ChocloFacts.

(** ** Superposition of the raw sums *)

Section Superposition.

Lemma add_arrays_map {A : Type} (f g : A -> float) (ls : list A) :
  add_arrays (map f ls) (map g ls) = map (fun l => f l + g l) ls.
Proof.
  unfold add_arrays. induction ls as [|l ls IH]; [reflexivity|].
  cbn [map combine fst snd]. f_equal. exact IH.
Qed.

(** The raw sum of two prisms is the sum of their two raw sums: the
    accumulator starts at [+0], and adding to [+0] rounds nothing. *)
Lemma raw_sum_pair (k : kernel) (e n u : float) (p1 p2 : prism) (d1 d2 : float) :
  raw_sum k e n u (surviving [p1; p2] [d1; d2])
  = raw_sum k e n u (surviving [p1] [d1]) + raw_sum k e n u (surviving [p2] [d2]).
Proof.
  unfold surviving. cbn [combine filter fst snd].
  destruct (null_prism p1 d1), (null_prism p2 d2); cbn [negb raw_sum fold_left fst snd];
    unfold raw_sum; cbn [fold_left fst snd].
  - reflexivity.
  - symmetry. apply FloatFacts.add_zero_l_idem.
  - symmetry. apply FloatFacts.add_zero_l_zero_r.
  - apply FloatFacts.add_zero_l_assoc.
Qed.

Lemma raw_sums_pair (k : kernel) (c : coordinates) (p1 p2 : prism) (d1 d2 : float) :
  raw_sums k c (surviving [p1; p2] [d1; d2])
  = add_arrays (raw_sums k c (surviving [p1] [d1]))
               (raw_sums k c (surviving [p2] [d2])).
Proof.
  unfold raw_sums. rewrite add_arrays_map.
  apply map_ext. intros l. apply raw_sum_pair.
Qed.

End Superposition.

(** ** The claims *)

Section Claims.

Variables gravity_pot gravity_e gravity_n gravity_u : kernel.
Variables gravity_ee gravity_nn gravity_uu : kernel.
Variables gravity_en gravity_eu gravity_nu : kernel.
Variables on_easting on_northing on_upward : check_func.
Variable ProgressBar : bool.

Local Abbreviation registry :=
  (FIELDS_get gravity_pot gravity_e gravity_n gravity_u gravity_ee gravity_nn
              gravity_uu gravity_en gravity_eu gravity_nu).
Local Abbreviation gravity :=
  (prism_gravity gravity_pot gravity_e gravity_n gravity_u gravity_ee gravity_nn
                 gravity_uu gravity_en gravity_eu gravity_nu
                 on_easting on_northing on_upward ProgressBar).

(** What a valid input returns: the three updates of the source applied
    to the raw sums of the surviving prisms. *)
Lemma outcome_of_valid_input (schedule : list nat) (c : coordinates)
  (prisms : list prism) (density : list float) (field : string) (k : kernel)
  (parallel progressbar disable_checks : bool) :
  valid_input ProgressBar c prisms density field progressbar disable_checks ->
  registry field = Some k ->
  (parallel = true ->
   complete_schedule (List.length (easting c))
                     (List.length (surviving prisms density)) schedule) ->
  outcome (gravity schedule c prisms density field parallel progressbar disable_checks)
  = inr (normalize field (raw_sums k c (surviving prisms density))).
Proof.
  intros Hv Hk Hs.
  rewrite (prism_gravity_valid _ _ _ _ _ _ _ _ _ _ _ _ _ _
             schedule c prisms density field k parallel progressbar disable_checks Hv Hk).
  cbn [outcome]. now rewrite forward_func_spec.
Qed.

(** C1: for every valid input and every field tag, the returned array is
    the array of raw accumulated kernel sums over the surviving prisms,
    post-processed by the rule of the tag: the sum is negated for [g_z],
    [g_ez] and [g_nz]; then it is multiplied by 1e5 for [g_e], [g_n] and
    [g_z], by 1e9 for the six tensor components, and left unscaled for
    [potential]; each rule applies once, the sign flip before the scaling. *)
Theorem sign_unit_contract (schedule : list nat) (c : coordinates)
  (prisms : list prism) (density : list float) (field : string)
  (parallel progressbar disable_checks : bool) :
  valid_input ProgressBar c prisms density field progressbar disable_checks ->
  (parallel = true ->
   complete_schedule (List.length (easting c))
                     (List.length (surviving prisms density)) schedule) ->
  exists k,
    registry field = Some k /\
    outcome (gravity schedule c prisms density field parallel progressbar disable_checks)
    = inr (map (spec_normalize field) (raw_sums k c (surviving prisms density))).
Proof.
  intros Hv Hs.
  destruct (registry_registered gravity_pot gravity_e gravity_n gravity_u
              gravity_ee gravity_nn gravity_uu gravity_en gravity_eu gravity_nu
              field (proj1 Hv)) as [k Hk].
  exists k. split; [exact Hk|].
  rewrite (outcome_of_valid_input schedule c prisms density field k
             parallel progressbar disable_checks Hv Hk Hs).
  f_equal. apply normalize_spec.
Qed.

(** C6: when no prism survives the null-prism filter (every prism was
    null, or there was none), the result at every observation point is
    zero, for every field tag. *)
Theorem no_survivors_zero (schedule : list nat) (c : coordinates)
  (prisms : list prism) (density : list float) (field : string)
  (parallel progressbar disable_checks : bool) :
  valid_input ProgressBar c prisms density field progressbar disable_checks ->
  surviving prisms density = [] ->
  exists result,
    outcome (gravity schedule c prisms density field parallel progressbar disable_checks)
    = inr result /\
    List.length result = List.length (easting c) /\
    Forall (fun r => (r =? 0) = true) result.
Proof.
  intros Hv Hs.
  destruct (registry_registered gravity_pot gravity_e gravity_n gravity_u
              gravity_ee gravity_nn gravity_uu gravity_en gravity_eu gravity_nu
              field (proj1 Hv)) as [k Hk].
  rewrite (prism_gravity_valid _ _ _ _ _ _ _ _ _ _ _ _ _ _
             schedule c prisms density field k parallel progressbar disable_checks Hv Hk).
  cbn [outcome]. rewrite Hs. cbn [map].
  rewrite forward_func_no_prisms. cbn [fst].
  eexists. split; [reflexivity|].
  rewrite normalize_spec. unfold zeros. split.
  - now rewrite length_map, repeat_length.
  - apply Forall_forall. intros r Hr.
    apply in_map_iff in Hr as (x & <- & Hx).
    apply repeat_spec in Hx. subst x. apply spec_normalize_zero.
Qed.

(** C7: for a field tag that is not one of the ten registered tags,
    [prism_gravity] raises the unknown-field error whatever the coordinate,
    prism and density arrays and whatever the flags: no array is consulted,
    no warning is emitted and no kernel is evaluated. *)
Theorem unknown_field_raises_first (schedule : list nat) (c : coordinates)
  (prisms : list prism) (density : list float) (field : string)
  (parallel progressbar disable_checks : bool) :
  ~ In field registered_tags ->
  gravity schedule c prisms density field parallel progressbar disable_checks
  = mkRun (inl (UnknownField field)) [] [].
Proof.
  intros Hf. unfold prism_gravity.
  rewrite (registry_unknown gravity_pot gravity_e gravity_n gravity_u
             gravity_ee gravity_nn gravity_uu gravity_en gravity_eu gravity_nu
             field Hf).
  reflexivity.
Qed.

(** C9: null-prism filtering is unconditional: whatever the flags
    ([disable_checks] included), every kernel evaluation is made on a
    prism of non-zero volume paired with a non-zero density, so the
    boundaries of a null prism never reach a kernel. *)
Theorem null_prisms_never_reach_kernel (schedule : list nat) (c : coordinates)
  (prisms : list prism) (density : list float) (field : string)
  (parallel progressbar disable_checks : bool) :
  Forall (fun a =>
            null_prism (call_prism a) (call_density a) = false /\
            In (call_prism a, call_density a) (surviving prisms density))
    (kernel_calls
       (gravity schedule c prisms density field parallel progressbar disable_checks)).
Proof.
  eapply Forall_impl; [|apply prism_gravity_calls].
  intros a Ha. split; [|exact Ha].
  exact (surviving_not_null prisms density _ Ha).
Qed.

(** C2 (as the code has it): when the checks are not skipped, the field is
    registered, there is one density for each prism and some prism violates
    a boundary ordering, [prism_gravity] fails with the invalid-geometry
    error, before any warning or kernel evaluation.  The message is about
    one constraint only, the first violated one in the order west/east,
    south/north, bottom/top: it names that constraint and lists every prism
    that violates it, and no other prism. *)
Theorem invalid_geometry_first_constraint (schedule : list nat) (c : coordinates)
  (prisms : list prism) (density : list float) (field : string)
  (parallel progressbar : bool) :
  In field registered_tags ->
  equal_sizes c ->
  List.length density = List.length prisms ->
  (exists p, In p prisms /\ offending p = true) ->
  exists cst,
    first_violated prisms = Some cst /\
    gravity schedule c prisms density field parallel progressbar false
    = mkRun (inl (InvalidGeometry (geometry_message cst prisms))) [] [] /\
    (forall p, In (Repr p) (geometry_message cst prisms) <->
               In p prisms /\ violates cst p = true).
Proof.
  intros Hf Hc Hd (p & Hp & Hoff).
  destruct (first_violated prisms) as [cst|] eqn:Hfv.
  - exists cst. split; [reflexivity|]. split; [|apply geometry_message_Repr].
    destruct (registry_registered gravity_pot gravity_e gravity_n gravity_u
                gravity_ee gravity_nn gravity_uu gravity_en gravity_eu gravity_nu
                field Hf) as [k Hk].
    unfold prism_gravity. rewrite Hk. unfold prism_gravity_body.
    rewrite (broadcast_equal_sizes c Hc). unfold sanity_checks.
    rewrite Hd, Nat.eqb_refl, check_prisms_first_violated, Hfv. reflexivity.
  - exfalso. rewrite first_violated_None in Hfv.
    unfold offending in Hoff. rewrite !(Hfv p Hp) in Hoff. discriminate.
Qed.

(** C3: for every input whose coordinate arrays have one size, and every
    complete schedule of the parallel loop, the parallel path and the
    serial path return the same array, element for element the same
    binary64 value (or fail with the same error), with the same warnings. *)
Theorem serial_parallel_identical (schedule : list nat) (c : coordinates)
  (prisms : list prism) (density : list float) (field : string)
  (progressbar disable_checks : bool) :
  equal_sizes c ->
  complete_schedule (List.length (easting c))
                    (List.length (surviving prisms density)) schedule ->
  outcome (gravity schedule c prisms density field true progressbar disable_checks)
  = outcome (gravity schedule c prisms density field false progressbar disable_checks) /\
  warnings (gravity schedule c prisms density field true progressbar disable_checks)
  = warnings (gravity schedule c prisms density field false progressbar disable_checks).
Proof.
  intros Hc Hs. unfold prism_gravity.
  destruct (registry field) as [k|]; [|split; reflexivity].
  unfold prism_gravity_body. rewrite (broadcast_equal_sizes c Hc).
  destruct (if disable_checks then ret tt
            else sanity_checks on_easting on_northing on_upward c prisms density field)
    as [ws [e|[]]]; cbn [bind]; [split; reflexivity|].
  destruct (Nat.eq_dec (List.length density) (List.length prisms)) as [Hd|Hd].
  - rewrite (discard_null_prisms_spec prisms density Hd). cbn [bind ret].
    destruct (progressbar && negb ProgressBar); cbn [bind raise ret];
      [split; reflexivity|].
    pose proof (forward_func_spec c k true schedule (surviving prisms density)
                                  (fun _ => Hs)) as Hpar.
    pose proof (forward_func_spec c k false schedule (surviving prisms density))
      as Hser.
    unfold forward_func in Hpar, Hser.
    destruct (jit_prism_gravity_parallel schedule c _ _ k _) as [rp cp].
    destruct (jit_prism_gravity_serial c _ _ k _) as [rs cs].
    cbn [fst] in Hpar, Hser. rewrite Hpar, Hser by discriminate.
    split; reflexivity.
  - rewrite (discard_null_prisms_mismatch prisms density Hd). split; reflexivity.
Qed.

(** C4: for every valid input, appending one more prism that has zero
    density or zero volume (and that the validator accepts, where it runs),
    together with its density, leaves the returned array unchanged. *)
Theorem null_prism_invariance (schedule : list nat) (c : coordinates)
  (prisms : list prism) (density : list float) (p : prism) (d : float)
  (field : string) (parallel progressbar disable_checks : bool) :
  valid_input ProgressBar c prisms density field progressbar disable_checks ->
  (disable_checks = false -> offending p = false) ->
  null_prism p d = true ->
  exists result,
    outcome (gravity schedule c prisms density field
                     parallel progressbar disable_checks) = inr result /\
    outcome (gravity schedule c (prisms ++ [p]) (density ++ [d]) field
                     parallel progressbar disable_checks) = inr result.
Proof.
  intros Hv Hp Hn.
  assert (Hv' : valid_input ProgressBar c (prisms ++ [p]) (density ++ [d]) field
                            progressbar disable_checks).
  { destruct Hv as (Hf & Hc & Hd & Hg & Hb).
    repeat split; try assumption; try apply Hc.
    - rewrite !length_app. simpl. lia.
    - intros E. apply check_prisms_ok. intros q Hq cst.
      apply in_app_or in Hq as [Hq|[<-|[]]].
      + specialize (Hg E). rewrite check_prisms_ok in Hg. now apply Hg.
      + specialize (Hp E). unfold offending in Hp.
        apply orb_false_iff in Hp as [Hp H3]. apply orb_false_iff in Hp as [H1 H2].
        destruct cst; assumption. }
  destruct (registry_registered gravity_pot gravity_e gravity_n gravity_u
              gravity_ee gravity_nn gravity_uu gravity_en gravity_eu gravity_nu
              field (proj1 Hv)) as [k Hk].
  rewrite (prism_gravity_valid _ _ _ _ _ _ _ _ _ _ _ _ _ _
             schedule c prisms density field k parallel progressbar disable_checks Hv Hk).
  rewrite (prism_gravity_valid _ _ _ _ _ _ _ _ _ _ _ _ _ _
             schedule c (prisms ++ [p]) (density ++ [d]) field k
             parallel progressbar disable_checks Hv' Hk).
  rewrite (surviving_app_null prisms density p d (proj1 (proj2 (proj2 Hv))) Hn).
  cbn [outcome]. eexists. split; reflexivity.
Qed.

(** C5 (as the code has it): for every point set, field tag and two prisms
    with their densities, on a valid input, the field of the two prisms is
    the rule of the tag applied to the element-wise sum of the raw sums of
    the two single-prism computations, exactly; for [potential], which is
    not rescaled, it is therefore exactly the element-wise sum of the two
    single-prism results. *)
Theorem superposition_of_raw_sums (s12 s1 s2 : list nat) (c : coordinates)
  (p1 p2 : prism) (d1 d2 : float) (field : string)
  (parallel progressbar disable_checks : bool) :
  valid_input ProgressBar c [p1; p2] [d1; d2] field progressbar disable_checks ->
  (parallel = true ->
   complete_schedule (List.length (easting c))
                     (List.length (surviving [p1; p2] [d1; d2])) s12 /\
   complete_schedule (List.length (easting c))
                     (List.length (surviving [p1] [d1])) s1 /\
   complete_schedule (List.length (easting c))
                     (List.length (surviving [p2] [d2])) s2) ->
  exists k raw1 raw2,
    registry field = Some k /\
    raw1 = raw_sums k c (surviving [p1] [d1]) /\
    raw2 = raw_sums k c (surviving [p2] [d2]) /\
    outcome (gravity s1 c [p1] [d1] field parallel progressbar disable_checks)
    = inr (map (spec_normalize field) raw1) /\
    outcome (gravity s2 c [p2] [d2] field parallel progressbar disable_checks)
    = inr (map (spec_normalize field) raw2) /\
    outcome (gravity s12 c [p1; p2] [d1; d2] field parallel progressbar disable_checks)
    = inr (map (spec_normalize field) (add_arrays raw1 raw2)) /\
    (field = "potential" ->
     outcome (gravity s12 c [p1; p2] [d1; d2] field parallel progressbar disable_checks)
     = inr (add_arrays (map (spec_normalize field) raw1)
                       (map (spec_normalize field) raw2))).
Proof.
  intros Hv Hs.
  assert (Hsub : forall p d, In p [p1; p2] ->
             valid_input ProgressBar c [p] [d] field progressbar disable_checks).
  { intros p d Hp. destruct Hv as (Hf & Hc & Hd & Hg & Hb).
    repeat split; try assumption; try apply Hc.
    intros E. specialize (Hg E). rewrite check_prisms_ok in Hg.
    apply check_prisms_ok. intros q [<-|[]] cst. now apply Hg. }
  destruct (registry_registered gravity_pot gravity_e gravity_n gravity_u
              gravity_ee gravity_nn gravity_uu gravity_en gravity_eu gravity_nu
              field (proj1 Hv)) as [k Hk].
  pose proof (outcome_of_valid_input s12 c [p1; p2] [d1; d2] field k
                parallel progressbar disable_checks Hv Hk
                (fun E => proj1 (Hs E))) as H12.
  pose proof (outcome_of_valid_input s1 c [p1] [d1] field k
                parallel progressbar disable_checks
                (Hsub p1 d1 (or_introl eq_refl)) Hk
                (fun E => proj1 (proj2 (Hs E)))) as H1.
  pose proof (outcome_of_valid_input s2 c [p2] [d2] field k
                parallel progressbar disable_checks
                (Hsub p2 d2 (or_intror (or_introl eq_refl))) Hk
                (fun E => proj2 (proj2 (Hs E)))) as H2.
  rewrite normalize_spec in H12, H1, H2.
  exists k, (raw_sums k c (surviving [p1] [d1])), (raw_sums k c (surviving [p2] [d2])).
  rewrite raw_sums_pair in H12.
  repeat split; try assumption.
  intros ->. rewrite H12. f_equal.
  rewrite !(map_ext (spec_normalize "potential") (fun x => x)) by reflexivity.
  now rewrite !map_id.
Qed.

Local Abbreviation gravity_choclo :=
  (prism_gravity gravity_pot gravity_e gravity_n gravity_u gravity_ee gravity_nn
                 gravity_uu gravity_en gravity_eu gravity_nu
                 Choclo.is_point_on_easting_edge Choclo.is_point_on_northing_edge
                 Choclo.is_point_on_upward_edge ProgressBar).

(** C8: with the checks on and a valid input, for each of the six tensor
    tags, an observation point at a vertex of one of the prisms makes
    [prism_gravity] emit the advisory warning, once, and still return an
    array with one value for each point; observation points that are
    strictly inside the prisms trigger no warning, a point strictly inside
    a prism being on no edge of it; and for [potential], [g_e], [g_n] and
    [g_z] the scan is skipped, whatever the edge predicates are, and no
    warning is ever emitted. *)
Theorem singularity_warning :
  (forall (schedule : list nat) (c : coordinates) (prisms : list prism)
          (density : list float) (field : string) (parallel progressbar : bool)
          (l m : nat),
      In field tensor_tags ->
      valid_input ProgressBar c prisms density field progressbar false ->
      (l < List.length (easting c))%nat -> (m < List.length prisms)%nat ->
      well_ordered (row prisms m) = true ->
      at_vertex (get (easting c) l) (get (northing c) l) (get (upward c) l)
                (row prisms m) = true ->
      warnings (gravity_choclo schedule c prisms density field parallel progressbar false)
      = [SingularPointWarning] /\
      exists result,
        outcome (gravity_choclo schedule c prisms density field
                                parallel progressbar false) = inr result /\
        List.length result = List.length (easting c)) /\
  (forall (schedule : list nat) (c : coordinates) (prisms : list prism)
          (density : list float) (field : string) (parallel progressbar : bool),
      valid_input ProgressBar c prisms density field progressbar false ->
      (forall l m, (l < List.length (easting c))%nat -> (m < List.length prisms)%nat ->
         strictly_inside (get (easting c) l) (get (northing c) l) (get (upward c) l)
                         (row prisms m) = true) ->
      warnings (gravity_choclo schedule c prisms density field parallel progressbar false)
      = []) /\
  (forall (field : string) (e n u : float) (p : prism),
      strictly_inside e n u p = true ->
      singular_for Choclo.is_point_on_easting_edge Choclo.is_point_on_northing_edge
                   Choclo.is_point_on_upward_edge field e n u p = false) /\
  (forall (schedule : list nat) (c : coordinates) (prisms : list prism)
          (density : list float) (field : string)
          (parallel progressbar disable_checks : bool),
      In field ["potential"; "g_e"; "g_n"; "g_z"] ->
      _check_singular_points on_easting on_northing on_upward c prisms field = ret tt /\
      warnings (gravity schedule c prisms density field
                        parallel progressbar disable_checks) = []).
Proof.
  split; [|split; [|split]].
  - intros schedule c prisms density field parallel progressbar l m
           Hf Hv Hl Hm Hw Hat.
    destruct (registry_registered gravity_pot gravity_e gravity_n gravity_u
                gravity_ee gravity_nn gravity_uu gravity_en gravity_eu gravity_nu
                field (proj1 Hv)) as [k Hk].
    rewrite (prism_gravity_valid _ _ _ _ _ _ _ _ _ _ _ _ _ _
               schedule c prisms density field k parallel progressbar false Hv Hk).
    cbn [warnings outcome]. split.
    + unfold scan_warnings.
      rewrite (any_singular_true _ _ _ field c prisms l m Hl Hm); [reflexivity|].
      now apply vertex_singular.
    + eexists. split; [reflexivity|].
      rewrite normalize_spec, length_map. apply forward_func_length.
  - intros schedule c prisms density field parallel progressbar Hv Hin.
    destruct (registry_registered gravity_pot gravity_e gravity_n gravity_u
                gravity_ee gravity_nn gravity_uu gravity_en gravity_eu gravity_nu
                field (proj1 Hv)) as [k Hk].
    rewrite (prism_gravity_valid _ _ _ _ _ _ _ _ _ _ _ _ _ _
               schedule c prisms density field k parallel progressbar false Hv Hk).
    cbn [warnings]. unfold scan_warnings.
    rewrite any_singular_false; [reflexivity|].
    intros l m Hl Hm. apply inside_not_singular. now apply Hin.
  - intros field e n u p. apply inside_not_singular.
  - intros schedule c prisms density field parallel progressbar disable_checks Hf.
    assert (Hno : any_singular on_easting on_northing on_upward field c prisms = false).
    { apply any_singular_false. intros l m _ _. now apply not_scanned. }
    split.
    + now rewrite check_singular_points_spec, Hno.
    + destruct (prism_gravity_warnings_cases gravity_pot gravity_e gravity_n gravity_u
                  gravity_ee gravity_nn gravity_uu gravity_en gravity_eu gravity_nu
                  on_easting on_northing on_upward ProgressBar
                  schedule c prisms density field parallel progressbar disable_checks)
        as [E|E]; [exact E|].
      rewrite E. unfold scan_warnings. now rewrite Hno.
Qed.

(** C10: the singularity scan runs on the prisms as given, before the
    null-prism filter: with the checks on and a tensor tag, an observation
    point on a singular feature of a prism that is itself null (zero
    volume or zero density) still triggers the advisory warning, although
    that prism is filtered out and contributes nothing to the result. *)
Theorem scan_sees_null_prisms (schedule : list nat) (c : coordinates)
  (prisms : list prism) (density : list float) (field : string)
  (parallel progressbar : bool) (l m : nat) :
  In field tensor_tags ->
  equal_sizes c ->
  List.length density = List.length prisms ->
  _check_prisms prisms = ret tt ->
  (l < List.length (easting c))%nat -> (m < List.length prisms)%nat ->
  null_prism (row prisms m) (get density m) = true ->
  singular_for on_easting on_northing on_upward field
    (get (easting c) l) (get (northing c) l) (get (upward c) l) (row prisms m) = true ->
  warnings (gravity schedule c prisms density field parallel progressbar false)
  = [SingularPointWarning] /\
  ~ In (row prisms m, get density m) (surviving prisms density) /\
  Forall (fun a => (call_prism a, call_density a) <> (row prisms m, get density m))
    (kernel_calls (gravity schedule c prisms density field parallel progressbar false)).
Proof.
  intros Hf Hc Hd Hg Hl Hm Hn Hs.
  assert (Hreg : In field registered_tags).
  { unfold tensor_tags in Hf. unfold registered_tags. cbn [In] in *. tauto. }
  assert (Hout : ~ In (row prisms m, get density m) (surviving prisms density)).
  { intros Hin. apply surviving_not_null in Hin. cbn [fst snd] in Hin. congruence. }
  split; [|split; [exact Hout|]].
  - rewrite (prism_gravity_warnings_checked _ _ _ _ _ _ _ _ _ _ _ _ _ _
               schedule c prisms density field parallel progressbar Hreg Hc Hd Hg).
    unfold scan_warnings.
    now rewrite (any_singular_true _ _ _ field c prisms l m Hl Hm Hs).
  - eapply Forall_impl; [|apply prism_gravity_calls].
    intros a Ha E. apply Hout. now rewrite <- E.
Qed.

End Claims.

(** ** The claims on concrete inputs *)

Section Instances.

Import Example.

Ltac valid_input_here :=
  unfold valid_input, equal_sizes;
  split; [simpl; tauto|];
  split; [split; reflexivity|];
  split; [reflexivity|];
  split; [intros _; vm_compute; reflexivity | discriminate].

Ltac complete_schedule_here :=
  split;
  [ repeat constructor; simpl; lia
  | let l := fresh "l" in let Hl := fresh "Hl" in
    intros l Hl; simpl in Hl;
    repeat (destruct l as [|l]; [reflexivity|]); lia ].

Lemma round_robin_complete : complete_schedule 3 2 (round_robin 3 2).
Proof. complete_schedule_here. Qed.

Lemma sign_unit_contract_witness :
  exists k,
    FIELDS_get density_kernel density_kernel density_kernel density_kernel
               density_kernel density_kernel density_kernel density_kernel
               density_kernel density_kernel "g_z" = Some k /\
    outcome (Example.prism_gravity (round_robin 3 2) above [unit_cube; shifted_cube]
                                   [tenth; fifth] "g_z" true false false)
    = inr (map (spec_normalize "g_z")
               (raw_sums k above (surviving [unit_cube; shifted_cube] [tenth; fifth]))).
Proof.
  unfold Example.prism_gravity.
  apply sign_unit_contract; [valid_input_here | intros _; complete_schedule_here].
Defined.

Lemma invalid_geometry_first_constraint_witness :
  exists cst,
    first_violated [unit_cube; bad_sn_prism; bad_we_prism] = Some cst /\
    Example.prism_gravity [] above [unit_cube; bad_sn_prism; bad_we_prism] [1; 1; 1]
                          "g_z" false false false
    = mkRun (inl (InvalidGeometry
                    (geometry_message cst [unit_cube; bad_sn_prism; bad_we_prism])))
            [] [] /\
    (forall p, In (Repr p) (geometry_message cst [unit_cube; bad_sn_prism; bad_we_prism])
               <-> In p [unit_cube; bad_sn_prism; bad_we_prism] /\ violates cst p = true).
Proof.
  unfold Example.prism_gravity.
  apply invalid_geometry_first_constraint.
  - simpl; tauto.
  - split; reflexivity.
  - reflexivity.
  - exists bad_sn_prism. split; [simpl; tauto | vm_compute; reflexivity].
Defined.

(** C2, refuted as stated: of two offending prisms, one with west and
    east swapped and one with south and north swapped, the message lists
    the first and is silent about the second. *)
Lemma invalid_geometry_misses_offender :
  exists msg,
    outcome (Example.prism_gravity [] above [bad_we_prism; bad_sn_prism] [1; 1]
                                   "g_z" false false false)
    = inl (InvalidGeometry msg) /\
    In bad_sn_prism [bad_we_prism; bad_sn_prism] /\
    violates SouthNorth bad_sn_prism = true /\
    ~ In (Repr bad_sn_prism) msg.
Proof.
  exists (geometry_message WestEast [bad_we_prism; bad_sn_prism]).
  split; [vm_compute; reflexivity|].
  split; [simpl; tauto|].
  split; [vm_compute; reflexivity|].
  rewrite geometry_message_Repr. intros [_ H].
  vm_compute in H. discriminate.
Qed.

Lemma serial_parallel_identical_witness :
  outcome (Example.prism_gravity (round_robin 3 2) above [unit_cube; shifted_cube]
                                 [tenth; fifth] "g_ez" true false false)
  = outcome (Example.prism_gravity (round_robin 3 2) above [unit_cube; shifted_cube]
                                   [tenth; fifth] "g_ez" false false false) /\
  warnings (Example.prism_gravity (round_robin 3 2) above [unit_cube; shifted_cube]
                                  [tenth; fifth] "g_ez" true false false)
  = warnings (Example.prism_gravity (round_robin 3 2) above [unit_cube; shifted_cube]
                                    [tenth; fifth] "g_ez" false false false).
Proof.
  unfold Example.prism_gravity.
  apply serial_parallel_identical; [split; reflexivity | complete_schedule_here].
Defined.

Lemma null_prism_invariance_witness :
  exists result,
    outcome (Example.prism_gravity [] above [unit_cube] [tenth]
                                   "g_n" false false false) = inr result /\
    outcome (Example.prism_gravity [] above ([unit_cube] ++ [flat_prism])
                                   ([tenth] ++ [fifth])
                                   "g_n" false false false) = inr result.
Proof.
  unfold Example.prism_gravity.
  apply null_prism_invariance;
    [valid_input_here | intros _; vm_compute; reflexivity | vm_compute; reflexivity].
Defined.

Lemma superposition_of_raw_sums_witness :
  exists k raw1 raw2,
    FIELDS_get density_kernel density_kernel density_kernel density_kernel
               density_kernel density_kernel density_kernel density_kernel
               density_kernel density_kernel "potential" = Some k /\
    raw1 = raw_sums k above (surviving [unit_cube] [tenth]) /\
    raw2 = raw_sums k above (surviving [shifted_cube] [fifth]) /\
    outcome (Example.prism_gravity [] above [unit_cube] [tenth]
                                   "potential" false false false)
    = inr (map (spec_normalize "potential") raw1) /\
    outcome (Example.prism_gravity [] above [shifted_cube] [fifth]
                                   "potential" false false false)
    = inr (map (spec_normalize "potential") raw2) /\
    outcome (Example.prism_gravity [] above [unit_cube; shifted_cube] [tenth; fifth]
                                   "potential" false false false)
    = inr (map (spec_normalize "potential") (add_arrays raw1 raw2)) /\
    ("potential" = "potential" ->
     outcome (Example.prism_gravity [] above [unit_cube; shifted_cube] [tenth; fifth]
                                    "potential" false false false)
     = inr (add_arrays (map (spec_normalize "potential") raw1)
                       (map (spec_normalize "potential") raw2))).
Proof.
  unfold Example.prism_gravity.
  apply superposition_of_raw_sums; [valid_input_here | discriminate].
Defined.

(** C5, refuted as stated: under each of the nine rescaled tags, with
    contributions 0.1 and 0.2 at every point, the field of the two prisms
    differs from the sum of the two single-prism fields (under [g_e]:
    30000.000000000004 against 10000 + 20000). *)
Lemma superposition_not_exact :
  Forall (fun field =>
    exists r12 r1 r2,
      outcome (Example.prism_gravity [] above [unit_cube; shifted_cube] [tenth; fifth]
                                     field false false false) = inr r12 /\
      outcome (Example.prism_gravity [] above [unit_cube] [tenth]
                                     field false false false) = inr r1 /\
      outcome (Example.prism_gravity [] above [shifted_cube] [fifth]
                                     field false false false) = inr r2 /\
      r12 <> add_arrays r1 r2)
    ["g_e"; "g_n"; "g_z"; "g_ee"; "g_nn"; "g_zz"; "g_en"; "g_ez"; "g_nz"].
Proof.
  repeat constructor;
    (eexists; eexists; eexists;
     split; [vm_compute; reflexivity|];
     split; [vm_compute; reflexivity|];
     split; [vm_compute; reflexivity|];
     intros H; apply (f_equal (fun r => Prim2SF (hd 0 r))) in H;
     vm_compute in H; discriminate H).
Qed.

Lemma no_survivors_zero_witness :
  exists result,
    outcome (Example.prism_gravity [] above [flat_prism; unit_cube] [tenth; 0]
                                   "g_z" true false false) = inr result /\
    List.length result = List.length (easting above) /\
    Forall (fun r => (r =? 0) = true) result.
Proof.
  unfold Example.prism_gravity.
  apply no_survivors_zero; [valid_input_here | vm_compute; reflexivity].
Defined.

Lemma unknown_field_raises_first_witness :
  Example.prism_gravity [] (mkCoordinates [0; 1] [0] []) [bad_we_prism] []
                        "g_xx" true true false
  = mkRun (inl (UnknownField "g_xx")) [] [].
Proof.
  unfold Example.prism_gravity.
  apply unknown_field_raises_first.
  unfold registered_tags. simpl. intros H.
  repeat (destruct H as [H|H]; [discriminate H|]). exact H.
Defined.

Lemma singularity_warning_witness :
  (warnings (Example.prism_gravity [] corner [shifted_cube; unit_cube] [1; 1]
                                   "g_en" false false false)
   = [SingularPointWarning] /\
   exists result,
     outcome (Example.prism_gravity [] corner [shifted_cube; unit_cube] [1; 1]
                                    "g_en" false false false) = inr result /\
     List.length result = List.length (easting corner)) /\
  warnings (Example.prism_gravity [] centre [unit_cube] [1] "g_en" false false false)
  = [] /\
  warnings (Example.prism_gravity [] corner [unit_cube] [1] "g_z" false false false)
  = [].
Proof.
  unfold Example.prism_gravity. split; [|split].
  - apply (proj1 (singularity_warning
                    density_kernel density_kernel density_kernel density_kernel
                    density_kernel density_kernel density_kernel density_kernel
                    density_kernel density_kernel
                    Choclo.is_point_on_easting_edge Choclo.is_point_on_northing_edge
                    Choclo.is_point_on_upward_edge false)
             [] corner [shifted_cube; unit_cube] [1; 1] "g_en" false false 0%nat 1%nat);
      [ simpl; tauto | valid_input_here | simpl; lia | simpl; lia
      | vm_compute; reflexivity | vm_compute; reflexivity ].
  - apply (proj1 (proj2 (singularity_warning
                    density_kernel density_kernel density_kernel density_kernel
                    density_kernel density_kernel density_kernel density_kernel
                    density_kernel density_kernel
                    Choclo.is_point_on_easting_edge Choclo.is_point_on_northing_edge
                    Choclo.is_point_on_upward_edge false)));
      [ valid_input_here |].
    intros l m Hl Hm. simpl in Hl, Hm.
    destruct l as [|l]; [|lia]. destruct m as [|m]; [|lia].
    vm_compute. reflexivity.
  - apply (proj2 (proj2 (proj2 (singularity_warning
                    density_kernel density_kernel density_kernel density_kernel
                    density_kernel density_kernel density_kernel density_kernel
                    density_kernel density_kernel
                    Choclo.is_point_on_easting_edge Choclo.is_point_on_northing_edge
                    Choclo.is_point_on_upward_edge false)))).
    simpl; tauto.
Defined.

Lemma scan_sees_null_prisms_witness :
  warnings (Example.prism_gravity [] corner [unit_cube; flat_prism] [0; 1]
                                  "g_zz" false false false)
  = [SingularPointWarning] /\
  ~ In (row [unit_cube; flat_prism] 1, get [0; 1] 1)
       (surviving [unit_cube; flat_prism] [0; 1]) /\
  Forall (fun a => (call_prism a, call_density a)
                   <> (row [unit_cube; flat_prism] 1, get [0; 1] 1))
    (kernel_calls (Example.prism_gravity [] corner [unit_cube; flat_prism] [0; 1]
                                         "g_zz" false false false)).
Proof.
  unfold Example.prism_gravity.
  apply (scan_sees_null_prisms _ _ _ _ _ _ _ _ _ _ _ _ _ _
           [] corner [unit_cube; flat_prism] [0; 1] "g_zz" false false 0%nat 1%nat);
    [ simpl; tauto | split; reflexivity | reflexivity | vm_compute; reflexivity
    | simpl; lia | simpl; lia | vm_compute; reflexivity | vm_compute; reflexivity ].
Defined.

End Instances.

(** * Further properties of the code *)

(** ** More facts about binary64 arithmetic *)

Module FloatOrder.

Lemma SFadd_comm (x y : spec_float) : SF64add x y = SF64add y x.
Proof.
  destruct x as [[]|[]| |sx mx ex], y as [[]|[]| |sy my ey]; try reflexivity.
  unfold SF64add, SFadd. rewrite (Z.min_comm ex ey).
  f_equal. apply Z.add_comm.
Qed.

Lemma add_comm (x y : float) : x + y = y + x.
Proof. apply Prim2SF_inj. rewrite !add_spec. apply SFadd_comm. Qed.

Lemma SFcompare_refl (x : spec_float) : x <> S754_nan -> SFcompare x x = Some Eq.
Proof.
  destruct x as [[]|[]| |[] m e]; intros H; try reflexivity; try congruence;
    simpl; rewrite Z.compare_refl, Pos.compare_cont_refl; reflexivity.
Qed.

Lemma SFcompare_None (x y : spec_float) :
  SFcompare x y = None <-> x = S754_nan \/ y = S754_nan.
Proof.
  destruct x as [[]|[]| |[] mx ex], y as [[]|[]| |[] my ey]; simpl;
    split; intros H; try discriminate; try reflexivity; auto;
    try (destruct H; discriminate).
Qed.

Lemma is_nan_spec (x : float) : is_nan x = true <-> Prim2SF x = S754_nan.
Proof.
  unfold is_nan. rewrite FloatAxioms.eqb_spec. unfold SFeqb. split.
  - intros H. destruct (Prim2SF x) eqn:E; try reflexivity;
      rewrite SFcompare_refl in H by discriminate; discriminate.
  - intros ->. reflexivity.
Qed.

(** [a > b] is false exactly when [a <= b] or the two do not compare. *)
Lemma gtb_false (a b : float) :
  gtb a b = false <-> ordered_or_nan a b = true.
Proof.
  unfold ordered_or_nan. rewrite !orb_true_iff.
  unfold gtb. rewrite ltb_spec, leb_spec, !is_nan_spec. unfold SFltb, SFleb.
  rewrite (FloatFacts.SFcompare_antisym (Prim2SF a) (Prim2SF b)).
  destruct (SFcompare (Prim2SF a) (Prim2SF b)) as [[]|] eqn:E; simpl.
  - tauto.
  - tauto.
  - split; [discriminate|]. intros [[H|H]|H]; [discriminate| |];
      (assert (N : SFcompare (Prim2SF a) (Prim2SF b) = None)
         by (apply SFcompare_None; auto)); congruence.
  - split; [|reflexivity]. intros _.
    apply SFcompare_None in E. tauto.
Qed.

(** A finite value: a zero or a number with a mantissa. *)
Lemma is_finite_spec (x : float) :
  is_finite x = true ->
  (exists s, Prim2SF x = S754_zero s) \/ (exists s m e, Prim2SF x = S754_finite s m e).
Proof.
  unfold is_finite, is_infinity. intros H.
  apply negb_true_iff, orb_false_iff in H as [Hn Hi].
  rewrite FloatAxioms.eqb_spec, abs_spec in Hi.
  change (Prim2SF infinity) with (S754_infinity false) in Hi.
  destruct (Prim2SF x) as [s|s| |s m e] eqn:E.
  - left. now exists s.
  - discriminate Hi.
  - apply (proj2 (is_nan_spec x)) in E. congruence.
  - right. now exists s, m, e.
Qed.

(** A finite value minus itself is [+0]. *)
Lemma sub_diag (x : float) : is_finite x = true -> Prim2SF (x - x) = S754_zero false.
Proof.
  intros H. rewrite sub_spec.
  destruct (is_finite_spec x H) as [[s ->]|(s & m & e & ->)].
  - destruct s; reflexivity.
  - unfold SF64sub, SFsub. rewrite Z.sub_diag. reflexivity.
Qed.

End FloatOrder.

(** ** The validator, the filter and the scanner on their own *)

Section Helpers.

(** X1: [_check_prisms] accepts a collection exactly when, for every prism
    and each of its three axes, the lower bound is at most the upper one or
    one of the two is NaN: a comparison with NaN is false, so such prisms are
    let through. *)
Theorem check_prisms_accepts (prisms : list prism) :
  _check_prisms prisms = ret tt <-> forallb passes_validator prisms = true.
Proof.
  rewrite check_prisms_ok, forallb_forall. split.
  - intros H p Hp. unfold passes_validator.
    rewrite !andb_true_iff, <- !FloatOrder.gtb_false.
    repeat split.
    + exact (H p Hp WestEast).
    + exact (H p Hp SouthNorth).
    + exact (H p Hp BottomTop).
  - intros H p Hp cst. specialize (H p Hp). unfold passes_validator in H.
    rewrite !andb_true_iff, <- !FloatOrder.gtb_false in H.
    destruct H as [[Hwe Hsn] Hbt]. destruct cst; assumption.
Qed.

(** X2: given one density for each prism, [_discard_null_prisms] returns
    two arrays of one size that, paired up, are exactly the non-null pairs of
    the input in their original order. *)
Theorem discard_null_prisms_filter (prisms : list prism) (density : list float) :
  List.length density = List.length prisms ->
  exists prisms' density',
    _discard_null_prisms prisms density = ret (prisms', density') /\
    List.length density' = List.length prisms' /\
    combine prisms' density'
    = filter (fun pd => negb (null_prism (fst pd) (snd pd))) (combine prisms density).
Proof.
  intros H.
  exists (map fst (surviving prisms density)), (map snd (surviving prisms density)).
  split; [now apply discard_null_prisms_spec|]. split.
  - now rewrite !length_map.
  - now rewrite combine_fst_snd.
Qed.

Lemma surviving_idempotent (prisms : list prism) (density : list float) :
  surviving (map fst (surviving prisms density)) (map snd (surviving prisms density))
  = surviving prisms density.
Proof.
  unfold surviving at 1. rewrite combine_fst_snd.
  unfold surviving. apply forallb_filter_id, forallb_filter.
Qed.

(** X3: filtering twice is filtering once: what [_discard_null_prisms]
    returns, it returns unchanged when run again. *)
Theorem discard_null_prisms_idempotent (prisms prisms' : list prism)
  (density density' : list float) :
  _discard_null_prisms prisms density = ret (prisms', density') ->
  _discard_null_prisms prisms' density' = ret (prisms', density').
Proof.
  intros H.
  destruct (Nat.eq_dec (List.length density) (List.length prisms)) as [Hd|Hd].
  - rewrite (discard_null_prisms_spec prisms density Hd) in H.
    injection H as <- <-.
    rewrite discard_null_prisms_spec by (now rewrite !length_map).
    now rewrite surviving_idempotent.
  - rewrite (discard_null_prisms_mismatch prisms density Hd) in H. discriminate.
Qed.

Lemma existsb_or {A : Type} (f g : A -> bool) (l : list A) :
  existsb (fun x => f x || g x) l = existsb f l || existsb g l.
Proof.
  induction l as [|x l IH]; [reflexivity|]. cbn [existsb]. rewrite IH.
  destruct (f x), (g x), (existsb f l), (existsb g l); reflexivity.
Qed.

(** X4: the scan for a diagonal component is the disjunction of the scans
    for its two predicates taken one at a time. *)
Theorem any_singular_point_diagonal_split
  (easting northing upward : list float) (prisms : list prism)
  (check_func1 check_func2 : check_func) :
  _any_singular_point_diagonal easting northing upward prisms check_func1 check_func2
  = _any_singular_point_non_diagonal easting northing upward prisms check_func1
    || _any_singular_point_non_diagonal easting northing upward prisms check_func2.
Proof.
  unfold _any_singular_point_diagonal, _any_singular_point_non_diagonal.
  induction (seq 0 (List.length easting)) as [|l ls IH]; [reflexivity|].
  cbn [existsb]. rewrite IH, existsb_or.
  repeat match goal with |- context [existsb ?f ?l] =>
    let b := fresh "b" in generalize (existsb f l); intros b end.
  destruct b, b0, b1, b2; reflexivity.
Qed.

(** X5: the scan answers [True] exactly when the predicate holds for some
    observation point and some prism of the arrays; in particular it answers
    [False] when there is no point or no prism. *)
Theorem any_singular_point_non_diagonal_iff
  (easting northing upward : list float) (prisms : list prism) (check : check_func) :
  _any_singular_point_non_diagonal easting northing upward prisms check = true <->
  exists l m, (l < List.length easting)%nat /\ (m < List.length prisms)%nat /\
              check (get easting l) (get northing l) (get upward l) (row prisms m) = true.
Proof.
  unfold _any_singular_point_non_diagonal. rewrite existsb_exists. split.
  - intros (l & Hl & H). apply existsb_exists in H as (m & Hm & H).
    apply in_seq in Hl, Hm. exists l, m. repeat split; try lia. exact H.
  - intros (l & m & Hl & Hm & H). exists l. split; [apply in_seq; lia|].
    apply existsb_exists. exists m. split; [apply in_seq; lia | exact H].
Qed.

End Helpers.

(** ** The accumulation engine: sizes and call counts *)

Section EngineCounts.

Variable c : coordinates.
Variable prisms : list prism.
Variable density : list float.
Variable k : kernel.

Let n_points := List.length (easting c).
Let n_prisms := List.length prisms.

Lemma jit_prism_gravity_serial_length (out : list float) :
  List.length (fst (jit_prism_gravity_serial c prisms density k out)) = List.length out.
Proof.
  unfold jit_prism_gravity_serial.
  assert (Hinner : forall l ms st,
             List.length
               (fst (fold_left (fun st m => accumulate c prisms density k l m st) ms st))
             = List.length (fst st)).
  { intros l ms. induction ms as [|m ms IH]; intros st; [reflexivity|].
    cbn [fold_left]. rewrite IH. unfold accumulate. cbn [fst].
    apply length_add_at. }
  assert (Houter : forall ls st,
             List.length
               (fst (fold_left (fun st l =>
                       fold_left (fun st m => accumulate c prisms density k l m st)
                                 (seq 0 (List.length prisms)) st) ls st))
             = List.length (fst st)).
  { intros ls. induction ls as [|l ls IH]; intros st; [reflexivity|].
    cbn [fold_left]. now rewrite IH, Hinner. }
  now rewrite Houter.
Qed.

Lemma jit_prism_gravity_parallel_length_any (schedule : list nat) (out : list float) :
  List.length (fst (jit_prism_gravity_parallel schedule c prisms density k out))
  = List.length out.
Proof.
  unfold jit_prism_gravity_parallel. cbn [fst].
  assert (H : forall st,
             List.length (par_out (fold_left (par_step c prisms density k) schedule st))
             = List.length (par_out st)).
  { induction schedule as [|l s IH]; intros st; [reflexivity|].
    cbn [fold_left]. rewrite IH. unfold par_step.
    destruct (Nat.ltb _ _); [|reflexivity].
    unfold accumulate. cbn [par_out fst]. apply length_add_at. }
  now rewrite H.
Qed.

Lemma list_sum_constant (m : nat) (ls : list nat) :
  list_sum (map (fun _ => m) ls) = (List.length ls * m)%nat.
Proof.
  induction ls as [|l ls IH]; [reflexivity|].
  change (list_sum (map (fun _ => m) (l :: ls)))
    with (m + list_sum (map (fun _ => m) ls))%nat.
  rewrite IH. simpl. lia.
Qed.

Lemma jit_prism_gravity_serial_count (x0 : float) :
  List.length (snd (jit_prism_gravity_serial c prisms density k (repeat x0 n_points)))
  = (n_points * n_prisms)%nat.
Proof.
  rewrite jit_prism_gravity_serial_spec. cbn [snd].
  rewrite length_flat_map.
  rewrite (map_ext _ (fun _ => n_prisms))
    by (intros l; now rewrite length_map, length_seq).
  now rewrite list_sum_constant, length_seq.
Qed.

Lemma list_sum_set_at (l v : nat) (a : list nat) (d : nat) :
  (l < List.length a)%nat ->
  (list_sum (set_at l v a) + nth l a d = list_sum a + v)%nat.
Proof.
  revert l. induction a as [|x a IH]; intros [|l] H; simpl in *; try lia.
  specialize (IH l ltac:(lia)). lia.
Qed.

(** Each step of the parallel loop that does something logs one call and
    advances one counter. *)
Lemma par_calls_counted (schedule : list nat) :
  forall st,
    List.length (par_calls st) = list_sum (par_next st) ->
    List.length (par_calls (fold_left (par_step c prisms density k) schedule st))
    = list_sum (par_next (fold_left (par_step c prisms density k) schedule st)).
Proof.
  induction schedule as [|l s IH]; intros st Hst; [exact Hst|].
  cbn [fold_left]. apply IH. unfold par_step.
  destruct (Nat.ltb (nth l (par_next st) (List.length prisms)) (List.length prisms))
    eqn:Hlt; [|exact Hst].
  apply Nat.ltb_lt in Hlt.
  assert (Hl : (l < List.length (par_next st))%nat).
  { destruct (Nat.lt_ge_cases l (List.length (par_next st))) as [?|Hge]; [assumption|].
    rewrite nth_overflow in Hlt by lia. lia. }
  unfold accumulate. cbn [par_calls par_next fst snd].
  rewrite length_app. cbn [List.length].
  pose proof (list_sum_set_at l (S (nth l (par_next st) (List.length prisms)))
                (par_next st) (List.length prisms) Hl).
  lia.
Qed.

Lemma jit_prism_gravity_parallel_count (schedule : list nat) (x0 : float) :
  complete_schedule n_points n_prisms schedule ->
  List.length (snd (jit_prism_gravity_parallel schedule c prisms density k
                                               (repeat x0 n_points)))
  = (n_points * n_prisms)%nat.
Proof.
  intros [_ Hcount].
  unfold jit_prism_gravity_parallel. cbn [snd]. fold n_points.
  rewrite par_calls_counted by (cbn [par_calls par_next]; induction n_points; auto).
  destruct (par_inv_run c prisms density k x0 schedule) as (_ & Hlen & Hpt & _).
  fold n_points n_prisms in Hlen, Hpt.
  assert (E : par_next (fold_left (par_step c prisms density k) schedule
                          (mkPar (repeat x0 n_points) (repeat 0%nat n_points) []))
              = map (fun _ => n_prisms) (seq 0 n_points)).
  { apply (nth_ext _ _ n_prisms n_prisms).
    - now rewrite length_map, length_seq.
    - intros l Hl. rewrite Hlen in Hl.
      destruct (Hpt l Hl) as [-> _].
      rewrite (Hcount l Hl), Nat.min_id.
      rewrite (map_nth (fun _ => n_prisms) (seq 0 n_points) 0%nat). reflexivity. }
  rewrite E, list_sum_constant, length_seq. reflexivity.
Qed.

End EngineCounts.

(** ** The public function: errors, warnings and sizes *)

Section Failures.

Variables gravity_pot gravity_e gravity_n gravity_u : kernel.
Variables gravity_ee gravity_nn gravity_uu : kernel.
Variables gravity_en gravity_eu gravity_nu : kernel.
Variables on_easting on_northing on_upward : check_func.
Variable ProgressBar : bool.

Local Abbreviation registry :=
  (FIELDS_get gravity_pot gravity_e gravity_n gravity_u gravity_ee gravity_nn
              gravity_uu gravity_en gravity_eu gravity_nu).
Local Abbreviation gravity :=
  (prism_gravity gravity_pot gravity_e gravity_n gravity_u gravity_ee gravity_nn
                 gravity_uu gravity_en gravity_eu gravity_nu
                 on_easting on_northing on_upward ProgressBar).
Local Abbreviation known :=
  (registry_registered gravity_pot gravity_e gravity_n gravity_u gravity_ee gravity_nn
                       gravity_uu gravity_en gravity_eu gravity_nu).

Lemma broadcast_size_None (c : coordinates) :
  (exists a b, In a (sizes c) /\ In b (sizes c) /\ a <> 1%nat /\ b <> 1%nat /\ a <> b) ->
  broadcast_size c = None.
Proof.
  intros (a & b & Ha & Hb & Ha1 & Hb1 & Hab).
  unfold broadcast_size. fold (sizes c).
  assert (Fa : In a (filter (fun s => negb (Nat.eqb s 1)) (sizes c))).
  { apply filter_In. split; [exact Ha|]. now apply negb_true_iff, Nat.eqb_neq. }
  assert (Fb : In b (filter (fun s => negb (Nat.eqb s 1)) (sizes c))).
  { apply filter_In. split; [exact Hb|]. now apply negb_true_iff, Nat.eqb_neq. }
  destruct (filter (fun s => negb (Nat.eqb s 1)) (sizes c)) as [|s rest]; [destruct Fa|].
  destruct (forallb (Nat.eqb s) rest) eqn:E; [|reflexivity].
  exfalso. rewrite forallb_forall in E.
  assert (Hs : forall x, In x (s :: rest) -> x = s).
  { intros x [<-|Hx]; [reflexivity|]. symmetry. now apply Nat.eqb_eq, E. }
  apply Hab. now rewrite (Hs a Fa), (Hs b Fb).
Qed.

(** X6: coordinate arrays whose sizes disagree (two of them differ and
    neither has size one) make [prism_gravity] fail at the broadcast, for
    every registered tag, before any check, warning or kernel evaluation. *)
Theorem incompatible_coordinates_raise (schedule : list nat) (c : coordinates)
  (prisms : list prism) (density : list float) (field : string)
  (parallel progressbar disable_checks : bool) :
  In field registered_tags ->
  (exists a b, In a (sizes c) /\ In b (sizes c) /\ a <> 1%nat /\ b <> 1%nat /\ a <> b) ->
  gravity schedule c prisms density field parallel progressbar disable_checks
  = mkRun (inl BroadcastError) [] [].
Proof.
  intros Hf Hc. destruct (known field Hf) as [k Hk].
  unfold prism_gravity. rewrite Hk. unfold prism_gravity_body.
  now rewrite (broadcast_size_None c Hc).
Qed.

(** X7: with the checks on, a density array whose size is not the number of
    prisms makes [prism_gravity] fail with the count-mismatch error, which
    carries the two sizes; this comes before the geometry is looked at, so
    it is the error reported even when some prism is invalid, and nothing is
    warned about or computed. *)
Theorem density_count_mismatch (schedule : list nat) (c : coordinates)
  (prisms : list prism) (density : list float) (field : string)
  (parallel progressbar : bool) :
  In field registered_tags ->
  broadcast_size c <> None ->
  List.length density <> List.length prisms ->
  gravity schedule c prisms density field parallel progressbar false
  = mkRun (inl (DensityCountMismatch (List.length density) (List.length prisms))) [] [].
Proof.
  intros Hf Hc Hd. destruct (known field Hf) as [k Hk].
  unfold prism_gravity. rewrite Hk. unfold prism_gravity_body.
  destruct (broadcast_size c) as [size|]; [|congruence].
  unfold sanity_checks. apply Nat.eqb_neq in Hd. rewrite Hd. reflexivity.
Qed.

(** X8: with the checks disabled the same mismatch is not reported as
    such: it surfaces in the null-prism filter, where the boolean index
    built from the densities does not fit the mask built from the prisms,
    still before any kernel evaluation. *)
Theorem unchecked_count_mismatch (schedule : list nat) (c : coordinates)
  (prisms : list prism) (density : list float) (field : string)
  (parallel progressbar : bool) :
  In field registered_tags ->
  broadcast_size c <> None ->
  List.length density <> List.length prisms ->
  gravity schedule c prisms density field parallel progressbar true
  = mkRun (inl MaskIndexError) [] [].
Proof.
  intros Hf Hc Hd. destruct (known field Hf) as [k Hk].
  unfold prism_gravity. rewrite Hk. unfold prism_gravity_body.
  destruct (broadcast_size c) as [size|]; [|congruence].
  now rewrite (discard_null_prisms_mismatch prisms density Hd).
Qed.

(** X9: asking for a progress bar when [numba_progress] is not installed
    fails with the missing-dependency error on an input that is otherwise
    fine.  The error comes after the sanity checks, so the singularity
    warning, if any, has been emitted, and before the forward function, so no
    kernel is evaluated. *)
Theorem missing_progress_dependency (schedule : list nat) (c : coordinates)
  (prisms : list prism) (density : list float) (field : string)
  (parallel disable_checks : bool) :
  ProgressBar = false ->
  In field registered_tags ->
  broadcast_size c <> None ->
  List.length density = List.length prisms ->
  (disable_checks = false -> _check_prisms prisms = ret tt) ->
  gravity schedule c prisms density field parallel true disable_checks
  = mkRun (inl MissingProgressDependency)
          (if disable_checks then []
           else scan_warnings on_easting on_northing on_upward field c prisms)
          [].
Proof.
  intros Hb Hf Hc Hd Hg. destruct (known field Hf) as [k Hk].
  unfold prism_gravity. rewrite Hk. unfold prism_gravity_body.
  destruct (broadcast_size c) as [size|]; [|congruence].
  rewrite (discard_null_prisms_spec prisms density Hd), Hb.
  destruct disable_checks.
  - reflexivity.
  - rewrite (sanity_checks_pass on_easting on_northing on_upward
               c prisms density field Hd (Hg eq_refl)).
    cbn [bind ret raise andb negb]. now rewrite !app_nil_r.
Qed.

(** X10: whatever the input, [prism_gravity] emits at most one warning,
    however many observation points are singular for however many prisms. *)
Theorem at_most_one_warning (schedule : list nat) (c : coordinates)
  (prisms : list prism) (density : list float) (field : string)
  (parallel progressbar disable_checks : bool) :
  (List.length
     (warnings (gravity schedule c prisms density field
                        parallel progressbar disable_checks)) <= 1)%nat.
Proof.
  destruct (prism_gravity_warnings_cases gravity_pot gravity_e gravity_n gravity_u
              gravity_ee gravity_nn gravity_uu gravity_en gravity_eu gravity_nu
              on_easting on_northing on_upward ProgressBar
              schedule c prisms density field parallel progressbar disable_checks)
    as [-> | ->]; [simpl; lia|].
  unfold scan_warnings. destruct (any_singular _ _ _ _ _ _); simpl; lia.
Qed.

(** X11: with [disable_checks] set, [prism_gravity] never warns and never
    raises the invalid-geometry or the count-mismatch error, whatever the
    input. *)
Theorem disabled_checks_are_silent (schedule : list nat) (c : coordinates)
  (prisms : list prism) (density : list float) (field : string)
  (parallel progressbar : bool) :
  let r := gravity schedule c prisms density field parallel progressbar true in
  warnings r = [] /\
  (forall msg, outcome r <> inl (InvalidGeometry msg)) /\
  (forall n m, outcome r <> inl (DensityCountMismatch n m)).
Proof.
  cbv zeta. unfold prism_gravity.
  destruct (registry field) as [k|];
    [|repeat split; intros; discriminate].
  unfold prism_gravity_body.
  destruct (broadcast_size c) as [size|];
    [|repeat split; intros; discriminate].
  cbn [bind ret]. unfold _discard_null_prisms.
  destruct (null_mask prisms density);
    [|repeat split; intros; discriminate].
  cbn [bind ret].
  destruct (progressbar && negb ProgressBar); cbn [bind raise ret];
    [repeat split; intros; discriminate|].
  destruct (if parallel then _ else _) as [result calls].
  repeat split; intros; discriminate.
Qed.

Lemma forward_func_length_any (parallel : bool) (schedule : list nat)
  (c : coordinates) (prisms : list prism) (density : list float) (k : kernel)
  (out : list float) :
  List.length (fst (forward_func parallel schedule c prisms density k out))
  = List.length out.
Proof.
  unfold forward_func. destruct parallel.
  - apply jit_prism_gravity_parallel_length_any.
  - apply jit_prism_gravity_serial_length.
Qed.

(** X12: whenever [prism_gravity] returns an array, on any input and
    under any schedule, the array has the broadcast size of the three
    coordinate arrays. *)
Theorem result_has_broadcast_size (schedule : list nat) (c : coordinates)
  (prisms : list prism) (density : list float) (field : string)
  (parallel progressbar disable_checks : bool) (result : list float) :
  outcome (gravity schedule c prisms density field parallel progressbar disable_checks)
  = inr result ->
  broadcast_size c = Some (List.length result).
Proof.
  unfold prism_gravity.
  destruct (registry field) as [k|]; [|discriminate].
  unfold prism_gravity_body.
  destruct (broadcast_size c) as [size|]; [|discriminate].
  destruct (if disable_checks then ret tt
            else sanity_checks on_easting on_northing on_upward c prisms density field)
    as [ws [e|[]]]; cbn [bind]; [discriminate|].
  unfold _discard_null_prisms.
  destruct (null_mask prisms density) as [mask|]; [|discriminate].
  cbn [bind ret].
  destruct (progressbar && negb ProgressBar); cbn [bind raise ret]; [discriminate|].
  fold (forward_func parallel schedule).
  pose proof (forward_func_length_any parallel schedule c
                (select (map negb mask) prisms) (select (map negb mask) density)
                k (zeros size)) as Hlen.
  destruct (forward_func parallel schedule c _ _ k (zeros size)) as [raw calls].
  cbn [fst] in Hlen. cbn [outcome]. intros H. injection H as <-.
  rewrite normalize_spec, length_map, Hlen. unfold zeros.
  now rewrite repeat_length.
Qed.

(** X13: the sanity checks do not disturb the numbers: on an input that
    passes them, [prism_gravity] returns the same array, from the same
    kernel evaluations, with the checks on and with the checks off. *)
Theorem checks_do_not_change_result (schedule : list nat) (c : coordinates)
  (prisms : list prism) (density : list float) (field : string)
  (parallel progressbar : bool) :
  valid_input ProgressBar c prisms density field progressbar false ->
  outcome (gravity schedule c prisms density field parallel progressbar true)
  = outcome (gravity schedule c prisms density field parallel progressbar false) /\
  kernel_calls (gravity schedule c prisms density field parallel progressbar true)
  = kernel_calls (gravity schedule c prisms density field parallel progressbar false).
Proof.
  intros Hv.
  assert (Hv' : valid_input ProgressBar c prisms density field progressbar true).
  { destruct Hv as (Hf & Hc & Hd & Hg & Hb). repeat split; try assumption; try apply Hc.
    discriminate. }
  destruct (known field (proj1 Hv)) as [k Hk].
  rewrite (prism_gravity_valid _ _ _ _ _ _ _ _ _ _ _ _ _ _
             schedule c prisms density field k parallel progressbar true Hv' Hk).
  rewrite (prism_gravity_valid _ _ _ _ _ _ _ _ _ _ _ _ _ _
             schedule c prisms density field k parallel progressbar false Hv Hk).
  split; reflexivity.
Qed.

End Failures.

(** ** The public function: how results relate *)

Section Relations.

Variables gravity_pot gravity_e gravity_n gravity_u : kernel.
Variables gravity_ee gravity_nn gravity_uu : kernel.
Variables gravity_en gravity_eu gravity_nu : kernel.
Variables on_easting on_northing on_upward : check_func.
Variable ProgressBar : bool.

Local Abbreviation gravity :=
  (prism_gravity gravity_pot gravity_e gravity_n gravity_u gravity_ee gravity_nn
                 gravity_uu gravity_en gravity_eu gravity_nu
                 on_easting on_northing on_upward ProgressBar).
Local Abbreviation known :=
  (registry_registered gravity_pot gravity_e gravity_n gravity_u gravity_ee gravity_nn
                       gravity_uu gravity_en gravity_eu gravity_nu).
Local Abbreviation returned :=
  (outcome_of_valid_input gravity_pot gravity_e gravity_n gravity_u gravity_ee
                          gravity_nn gravity_uu gravity_en gravity_eu gravity_nu
                          on_easting on_northing on_upward ProgressBar).

(** X14: on a valid input the kernel is evaluated once for each pair of an
    observation point and a surviving prism, in the serial path and, under a
    complete schedule, in the parallel path. *)
Theorem kernel_evaluation_count (schedule : list nat) (c : coordinates)
  (prisms : list prism) (density : list float) (field : string)
  (parallel progressbar disable_checks : bool) :
  valid_input ProgressBar c prisms density field progressbar disable_checks ->
  (parallel = true ->
   complete_schedule (List.length (easting c))
                     (List.length (surviving prisms density)) schedule) ->
  List.length
    (kernel_calls
       (gravity schedule c prisms density field parallel progressbar disable_checks))
  = (List.length (easting c) * List.length (surviving prisms density))%nat.
Proof.
  intros Hv Hs. destruct (known field (proj1 Hv)) as [k Hk].
  rewrite (prism_gravity_valid _ _ _ _ _ _ _ _ _ _ _ _ _ _
             schedule c prisms density field k parallel progressbar disable_checks Hv Hk).
  cbn [kernel_calls]. unfold forward_func, zeros. destruct parallel.
  - rewrite jit_prism_gravity_parallel_count by (rewrite length_map; now apply Hs).
    now rewrite length_map.
  - rewrite jit_prism_gravity_serial_count. now rewrite length_map.
Qed.

Lemma valid_input_survivors (c : coordinates) (prisms : list prism)
  (density : list float) (field : string) (progressbar disable_checks : bool) :
  valid_input ProgressBar c prisms density field progressbar disable_checks ->
  valid_input ProgressBar c (map fst (surviving prisms density))
              (map snd (surviving prisms density)) field progressbar disable_checks.
Proof.
  intros (Hf & Hc & Hd & Hg & Hb). repeat split; try assumption; try apply Hc.
  - now rewrite !length_map.
  - intros E. specialize (Hg E). rewrite check_prisms_ok in Hg.
    apply check_prisms_ok. intros p Hp cst. apply Hg.
    apply in_map_iff in Hp as ([q d] & <- & Hq).
    unfold surviving in Hq. apply filter_In in Hq as [Hq _].
    now apply in_combine_l in Hq.
Qed.

(** X15: removing the null prisms beforehand changes nothing: on a valid
    input, [prism_gravity] returns the same array, from the same kernel
    evaluations, for the full collection and for the collection without its
    zero-volume and zero-density prisms, wherever they stand in it. *)
Theorem prefiltered_input_same_result (schedule : list nat) (c : coordinates)
  (prisms : list prism) (density : list float) (field : string)
  (parallel progressbar disable_checks : bool) :
  valid_input ProgressBar c prisms density field progressbar disable_checks ->
  let ps := surviving prisms density in
  outcome (gravity schedule c (map fst ps) (map snd ps) field
                   parallel progressbar disable_checks)
  = outcome (gravity schedule c prisms density field
                     parallel progressbar disable_checks) /\
  kernel_calls (gravity schedule c (map fst ps) (map snd ps) field
                        parallel progressbar disable_checks)
  = kernel_calls (gravity schedule c prisms density field
                          parallel progressbar disable_checks).
Proof.
  intros Hv ps. destruct (known field (proj1 Hv)) as [k Hk].
  rewrite (prism_gravity_valid _ _ _ _ _ _ _ _ _ _ _ _ _ _
             schedule c prisms density field k parallel progressbar disable_checks Hv Hk).
  rewrite (prism_gravity_valid _ _ _ _ _ _ _ _ _ _ _ _ _ _
             schedule c (map fst ps) (map snd ps) field k parallel progressbar
             disable_checks (valid_input_survivors c prisms density field
                               progressbar disable_checks Hv) Hk).
  unfold ps. rewrite surviving_idempotent. split; reflexivity.
Qed.

Lemma raw_sum_swap (k : kernel) (e n u : float) (p1 p2 : prism) (d1 d2 : float) :
  raw_sum k e n u (surviving [p1; p2] [d1; d2])
  = raw_sum k e n u (surviving [p2; p1] [d2; d1]).
Proof.
  rewrite !raw_sum_pair. apply FloatOrder.add_comm.
Qed.

(** X16: the order of two prisms does not matter: on a valid input the
    field of [p1, p2] with densities [d1, d2] is, element for element, the
    same binary64 value as the field of [p2, p1] with [d2, d1]. *)
Theorem two_prisms_commute (s12 s21 : list nat) (c : coordinates)
  (p1 p2 : prism) (d1 d2 : float) (field : string)
  (parallel progressbar disable_checks : bool) :
  valid_input ProgressBar c [p1; p2] [d1; d2] field progressbar disable_checks ->
  (parallel = true ->
   complete_schedule (List.length (easting c))
                     (List.length (surviving [p1; p2] [d1; d2])) s12 /\
   complete_schedule (List.length (easting c))
                     (List.length (surviving [p2; p1] [d2; d1])) s21) ->
  exists result,
    outcome (gravity s12 c [p1; p2] [d1; d2] field parallel progressbar disable_checks)
    = inr result /\
    outcome (gravity s21 c [p2; p1] [d2; d1] field parallel progressbar disable_checks)
    = inr result.
Proof.
  intros Hv Hs. destruct (known field (proj1 Hv)) as [k Hk].
  assert (Hv' : valid_input ProgressBar c [p2; p1] [d2; d1] field
                            progressbar disable_checks).
  { destruct Hv as (Hf & Hc & Hd & Hg & Hb). repeat split; try assumption; try apply Hc.
    intros E. specialize (Hg E). rewrite check_prisms_ok in Hg.
    apply check_prisms_ok. intros q Hq cst. apply Hg.
    cbn [In] in *. tauto. }
  rewrite (returned s12 c [p1; p2] [d1; d2] field k parallel progressbar disable_checks
             Hv Hk (fun E => proj1 (Hs E))).
  rewrite (returned s21 c [p2; p1] [d2; d1] field k parallel progressbar disable_checks
             Hv' Hk (fun E => proj2 (Hs E))).
  eexists. split; [reflexivity|]. do 2 f_equal.
  unfold raw_sums. apply map_ext. intros l. symmetry. apply raw_sum_swap.
Qed.

Lemma map_seq_shift {A : Type} (f g : nat -> A) (n : nat) :
  forall a b, (forall j, (j < n)%nat -> f (a + j)%nat = g (b + j)%nat) ->
              map f (seq a n) = map g (seq b n).
Proof.
  induction n as [|n IH]; intros a b H; [reflexivity|].
  cbn [seq map]. f_equal.
  - specialize (H 0%nat ltac:(lia)). now rewrite !Nat.add_0_r in H.
  - apply IH. intros j Hj. specialize (H (S j) ltac:(lia)).
    now rewrite !Nat.add_succ_r in H.
Qed.

Lemma raw_sums_append (k : kernel) (c c' : coordinates) (ps : list (prism * float)) :
  equal_sizes c ->
  raw_sums k (append_points c c') ps = raw_sums k c ps ++ raw_sums k c' ps.
Proof.
  intros [Hn Hu]. unfold raw_sums, append_points. cbn [easting northing upward].
  rewrite length_app, seq_app, map_app. f_equal.
  - apply map_ext_in. intros l Hl. apply in_seq in Hl. unfold get.
    rewrite !app_nth1 by lia. reflexivity.
  - apply map_seq_shift. intros j Hj. unfold get. cbn [Nat.add].
    rewrite !app_nth2 by lia.
    rewrite Hn, Hu. now rewrite Nat.add_comm, Nat.add_sub.
Qed.

(** X17: observation points do not interfere: on valid inputs, the field
    at the points of [c] followed by the points of [c'] is the field at the
    points of [c] followed by the field at the points of [c']. *)
Theorem points_are_independent (s s' s'' : list nat) (c c' : coordinates)
  (prisms : list prism) (density : list float) (field : string)
  (parallel progressbar disable_checks : bool) :
  valid_input ProgressBar c prisms density field progressbar disable_checks ->
  equal_sizes c' ->
  (parallel = true ->
   let n_prisms := List.length (surviving prisms density) in
   complete_schedule (List.length (easting c)) n_prisms s /\
   complete_schedule (List.length (easting c')) n_prisms s' /\
   complete_schedule (List.length (easting (append_points c c'))) n_prisms s'') ->
  exists r r',
    outcome (gravity s c prisms density field parallel progressbar disable_checks)
    = inr r /\
    outcome (gravity s' c' prisms density field parallel progressbar disable_checks)
    = inr r' /\
    outcome (gravity s'' (append_points c c') prisms density field
                     parallel progressbar disable_checks)
    = inr (r ++ r').
Proof.
  intros Hv Hc' Hs. destruct (known field (proj1 Hv)) as [k Hk].
  destruct Hv as (Hf & Hc & Hd & Hg & Hb).
  assert (Hva : forall x, equal_sizes x ->
              valid_input ProgressBar x prisms density field progressbar disable_checks).
  { intros x Hx. repeat split; try assumption; apply Hx. }
  assert (Hca : equal_sizes (append_points c c')).
  { destruct Hc as [H1 H2], Hc' as [H3 H4]. unfold equal_sizes, append_points.
    cbn [easting northing upward]. rewrite !length_app. lia. }
  rewrite (returned s c prisms density field k parallel progressbar disable_checks
             (Hva c Hc) Hk (fun E => proj1 (Hs E))).
  rewrite (returned s' c' prisms density field k parallel progressbar disable_checks
             (Hva c' Hc') Hk (fun E => proj1 (proj2 (Hs E)))).
  rewrite (returned s'' (append_points c c') prisms density field k parallel progressbar
             disable_checks (Hva _ Hca) Hk (fun E => proj2 (proj2 (Hs E)))).
  do 2 eexists. split; [reflexivity|]. split; [reflexivity|].
  f_equal. rewrite !normalize_spec, raw_sums_append by exact Hc.
  apply map_app.
Qed.

End Relations.

(** ** Which components an edge is singular for *)

Section EdgeDispatch.

Lemma ltb_leb (x y : float) : (x <? y) = true -> (x <=? y) = true.
Proof.
  rewrite ltb_spec, leb_spec. unfold SFltb, SFleb.
  destruct (SFcompare _ _) as [[]|]; congruence.
Qed.

Lemma singular_for_cases (ce cn cu : check_func) (field : string)
  (e n u : float) (p : prism) :
  singular_for ce cn cu field e n u p = true <->
  (field = "g_ee" /\ cn e n u p || cu e n u p = true) \/
  (field = "g_nn" /\ ce e n u p || cu e n u p = true) \/
  (field = "g_zz" /\ ce e n u p || cn e n u p = true) \/
  (field = "g_en" /\ cu e n u p = true) \/
  (field = "g_ez" /\ cn e n u p = true) \/
  (field = "g_nz" /\ ce e n u p = true).
Proof.
  unfold singular_for.
  repeat match goal with
         | |- context [String.eqb field ?t] =>
             destruct (String.eqb_spec field t) as [->|?]
         end;
    (split; [intros H | intros H; decompose [or and] H; clear H]);
    try congruence; tauto.
Qed.

Lemma check_one_point (ce cn cu : check_func) (field : string)
  (e n u : float) (p : prism) :
  _check_singular_points ce cn cu (mkCoordinates [e] [n] [u]) [p] field
  = if singular_for ce cn cu field e n u p then warn SingularPointWarning else ret tt.
Proof.
  rewrite check_singular_points_spec. unfold any_singular.
  cbn [easting northing upward List.length seq existsb get row nth].
  now rewrite !orb_false_r.
Qed.

Lemma warn_iff (b : bool) :
  (if b then warn SingularPointWarning else ret tt) = warn SingularPointWarning
  <-> b = true.
Proof. destruct b; split; intros H; try reflexivity; discriminate. Qed.

(** X18: with the edge predicates as the specification describes them, an
    observation point in the open interior of an edge of a prism is singular
    exactly for the components the docstring of [_check_singular_points]
    names: an edge along the easting axis for [g_nn], [g_zz] and [g_nz], one
    along the northing axis for [g_ee], [g_zz] and [g_ez], one along the
    upward axis for [g_ee], [g_nn] and [g_en]; for every other field the
    scan of that point against that prism does not warn. *)
Theorem edge_interior_dispatch (field : string) (e n u : float) (p : prism) :
  let scan :=
    _check_singular_points
      Choclo.is_point_on_easting_edge Choclo.is_point_on_northing_edge
      Choclo.is_point_on_upward_edge (mkCoordinates [e] [n] [u]) [p] field in
  (inside_easting_edge e n u p = true ->
   (scan = warn SingularPointWarning <-> In field ["g_nn"; "g_zz"; "g_nz"])) /\
  (inside_northing_edge e n u p = true ->
   (scan = warn SingularPointWarning <-> In field ["g_ee"; "g_zz"; "g_ez"])) /\
  (inside_upward_edge e n u p = true ->
   (scan = warn SingularPointWarning <-> In field ["g_ee"; "g_nn"; "g_en"])).
Proof.
  cbv zeta. rewrite check_one_point, warn_iff, singular_for_cases.
  unfold inside_easting_edge, inside_northing_edge, inside_upward_edge,
    Choclo.is_point_on_easting_edge, Choclo.is_point_on_northing_edge,
    Choclo.is_point_on_upward_edge.
  cbn [In].
  split; [|split]; intros H;
    apply andb_true_iff in H as [H H4]; apply andb_true_iff in H as [H H3];
    apply andb_true_iff in H as [H1 H2].
  - rewrite (outside_of_ltb e _ _ H1 H2), (ltb_leb _ _ H1), (ltb_leb _ _ H2), H3, H4.
    cbn [andb orb]. rewrite ?andb_true_r, ?andb_false_r. cbn [andb orb]. split.
    + intros H; decompose [or and] H; clear H; subst; try discriminate; auto 10.
    + intros [<-|[<-|[<-|[]]]]; auto 10.
  - rewrite (outside_of_ltb n _ _ H2 H3), (ltb_leb _ _ H2), (ltb_leb _ _ H3), H1, H4.
    cbn [andb orb]. rewrite ?andb_true_r, ?andb_false_r. cbn [andb orb]. split.
    + intros H; decompose [or and] H; clear H; subst; try discriminate; auto 10.
    + intros [<-|[<-|[<-|[]]]]; auto 10.
  - rewrite (outside_of_ltb u _ _ H3 H4), (ltb_leb _ _ H3), (ltb_leb _ _ H4), H1, H2.
    cbn [andb orb]. rewrite ?andb_true_r, ?andb_false_r. cbn [andb orb]. split.
    + intros H; decompose [or and] H; clear H; subst; try discriminate; auto 10.
    + intros [<-|[<-|[<-|[]]]]; auto 10.
Qed.

End EdgeDispatch.

(** ** The density function of the tesseroid example *)

Section TesseroidDensity.

(** X19: the linear density takes its bottom value exactly at the bottom
    radius: [density(mean_radius - 10e3)] is 3000, provided the bottom radius
    is finite, the top and bottom radii differ as floating-point numbers (or
    the division raises) and the slope is finite. *)
Theorem density_at_bottom (mean_radius : float) :
  let bottom := mean_radius - 10e3 in
  is_finite bottom = true ->
  ((mean_radius - bottom) =? 0) = false ->
  is_finite ((2670 - 3000) / (mean_radius - bottom)) = true ->
  Tesseroid.density mean_radius bottom = inr 3000.
Proof.
  cbv zeta. intros Hb Hz Hs. unfold Tesseroid.density. rewrite Hz. f_equal.
  apply Prim2SF_inj. rewrite add_spec, mul_spec, (FloatOrder.sub_diag _ Hb).
  change (Prim2SF 3000) with (S754_finite false 6597069766656000 (-41)).
  destruct (FloatOrder.is_finite_spec _ Hs) as [[s ->]|(s & m & e & ->)];
    destruct s; reflexivity.
Qed.

End TesseroidDensity.

(** ** The further properties on concrete inputs *)

Section MoreInstances.

Import Example.

Ltac valid_here :=
  unfold valid_input, equal_sizes;
  split; [simpl; tauto|];
  split; [split; reflexivity|];
  split; [reflexivity|];
  split; [intros _; vm_compute; reflexivity | discriminate].

Ltac complete_here :=
  split;
  [ repeat constructor; simpl; lia
  | let l := fresh "l" in let Hl := fresh "Hl" in
    intros l Hl; simpl in Hl;
    repeat (destruct l as [|l]; [reflexivity|]); lia ].

Lemma discard_null_prisms_filter_witness :
  exists prisms' density',
    _discard_null_prisms [unit_cube; flat_prism; shifted_cube] [tenth; fifth; 0]
    = ret (prisms', density') /\
    List.length density' = List.length prisms' /\
    combine prisms' density'
    = filter (fun pd => negb (null_prism (fst pd) (snd pd)))
             (combine [unit_cube; flat_prism; shifted_cube] [tenth; fifth; 0]).
Proof. apply discard_null_prisms_filter. reflexivity. Defined.

Lemma discard_null_prisms_idempotent_witness :
  _discard_null_prisms [unit_cube] [tenth] = ret ([unit_cube], [tenth]).
Proof.
  apply (discard_null_prisms_idempotent [unit_cube; flat_prism; shifted_cube]
           [unit_cube] [tenth; fifth; 0] [tenth]).
  vm_compute. reflexivity.
Defined.

Lemma incompatible_coordinates_raise_witness :
  Example.prism_gravity [] (mkCoordinates [0; 1; 2] [0; 0] [2]) [unit_cube] [tenth]
                        "g_z" false false false
  = mkRun (inl BroadcastError) [] [].
Proof.
  unfold Example.prism_gravity.
  apply incompatible_coordinates_raise; [simpl; tauto|].
  exists 3%nat, 2%nat. simpl. repeat split; auto; lia.
Defined.

Lemma density_count_mismatch_witness :
  Example.prism_gravity [] above [bad_we_prism] [tenth; fifth] "g_z" false false false
  = mkRun (inl (DensityCountMismatch (List.length [tenth; fifth])
                                     (List.length [bad_we_prism]))) [] [].
Proof.
  unfold Example.prism_gravity.
  apply density_count_mismatch;
    [simpl; tauto | vm_compute; discriminate | simpl; lia].
Defined.

Lemma unchecked_count_mismatch_witness :
  Example.prism_gravity [] above [unit_cube] [tenth; fifth] "g_z" false false true
  = mkRun (inl MaskIndexError) [] [].
Proof.
  unfold Example.prism_gravity.
  apply unchecked_count_mismatch;
    [simpl; tauto | vm_compute; discriminate | simpl; lia].
Defined.

Lemma missing_progress_dependency_witness :
  Example.prism_gravity [] corner [unit_cube] [tenth] "g_zz" false true false
  = mkRun (inl MissingProgressDependency)
          (scan_warnings Choclo.is_point_on_easting_edge Choclo.is_point_on_northing_edge
                         Choclo.is_point_on_upward_edge "g_zz" corner [unit_cube])
          [].
Proof.
  unfold Example.prism_gravity.
  apply (missing_progress_dependency
           density_kernel density_kernel density_kernel density_kernel
           density_kernel density_kernel density_kernel density_kernel
           density_kernel density_kernel
           Choclo.is_point_on_easting_edge Choclo.is_point_on_northing_edge
           Choclo.is_point_on_upward_edge false
           [] corner [unit_cube] [tenth] "g_zz" false false);
    [ reflexivity | simpl; tauto | vm_compute; discriminate | reflexivity
    | intros _; vm_compute; reflexivity ].
Defined.

Lemma result_has_broadcast_size_witness :
  broadcast_size (mkCoordinates [0] [0; 1; 2] [2])
  = Some (List.length [10000 : float; 0; 0]).
Proof.
  apply (result_has_broadcast_size
           density_kernel density_kernel density_kernel density_kernel
           density_kernel density_kernel density_kernel density_kernel
           density_kernel density_kernel
           Choclo.is_point_on_easting_edge Choclo.is_point_on_northing_edge
           Choclo.is_point_on_upward_edge false
           [] (mkCoordinates [0] [0; 1; 2] [2]) [unit_cube] [tenth] "g_e"
           false false false).
  vm_compute. reflexivity.
Defined.

Lemma checks_do_not_change_result_witness :
  outcome (Example.prism_gravity [] above [unit_cube; flat_prism] [tenth; fifth]
                                 "g_zz" false false true)
  = outcome (Example.prism_gravity [] above [unit_cube; flat_prism] [tenth; fifth]
                                   "g_zz" false false false) /\
  kernel_calls (Example.prism_gravity [] above [unit_cube; flat_prism] [tenth; fifth]
                                      "g_zz" false false true)
  = kernel_calls (Example.prism_gravity [] above [unit_cube; flat_prism] [tenth; fifth]
                                        "g_zz" false false false).
Proof.
  unfold Example.prism_gravity.
  apply checks_do_not_change_result. valid_here.
Defined.

Lemma kernel_evaluation_count_witness :
  List.length
    (kernel_calls (Example.prism_gravity (round_robin 3 2) above
                     [unit_cube; flat_prism; shifted_cube] [tenth; fifth; fifth]
                     "g_z" true false false))
  = (List.length (easting above)
     * List.length (surviving [unit_cube; flat_prism; shifted_cube]
                              [tenth; fifth; fifth]))%nat.
Proof.
  unfold Example.prism_gravity.
  apply kernel_evaluation_count; [valid_here | intros _; complete_here].
Defined.

Lemma prefiltered_input_same_result_witness :
  outcome (Example.prism_gravity [] above
             (map fst (surviving [flat_prism; unit_cube; shifted_cube] [tenth; 0; fifth]))
             (map snd (surviving [flat_prism; unit_cube; shifted_cube] [tenth; 0; fifth]))
             "g_n" false false false)
  = outcome (Example.prism_gravity [] above [flat_prism; unit_cube; shifted_cube]
                                   [tenth; 0; fifth] "g_n" false false false) /\
  kernel_calls (Example.prism_gravity [] above
             (map fst (surviving [flat_prism; unit_cube; shifted_cube] [tenth; 0; fifth]))
             (map snd (surviving [flat_prism; unit_cube; shifted_cube] [tenth; 0; fifth]))
             "g_n" false false false)
  = kernel_calls (Example.prism_gravity [] above [flat_prism; unit_cube; shifted_cube]
                                        [tenth; 0; fifth] "g_n" false false false).
Proof.
  unfold Example.prism_gravity.
  apply (prefiltered_input_same_result
           density_kernel density_kernel density_kernel density_kernel
           density_kernel density_kernel density_kernel density_kernel
           density_kernel density_kernel
           Choclo.is_point_on_easting_edge Choclo.is_point_on_northing_edge
           Choclo.is_point_on_upward_edge false
           [] above [flat_prism; unit_cube; shifted_cube] [tenth; 0; fifth]
           "g_n" false false false).
  valid_here.
Defined.

Lemma two_prisms_commute_witness :
  exists result,
    outcome (Example.prism_gravity [] above [unit_cube; shifted_cube] [tenth; fifth]
                                   "g_ez" false false false) = inr result /\
    outcome (Example.prism_gravity [] above [shifted_cube; unit_cube] [fifth; tenth]
                                   "g_ez" false false false) = inr result.
Proof.
  unfold Example.prism_gravity.
  apply two_prisms_commute; [valid_here | discriminate].
Defined.

Lemma points_are_independent_witness :
  exists r r',
    outcome (Example.prism_gravity [] above [unit_cube] [tenth]
                                   "g_z" false false false) = inr r /\
    outcome (Example.prism_gravity [] corner [unit_cube] [tenth]
                                   "g_z" false false false) = inr r' /\
    outcome (Example.prism_gravity [] (append_points above corner) [unit_cube] [tenth]
                                   "g_z" false false false) = inr (r ++ r').
Proof.
  unfold Example.prism_gravity.
  apply points_are_independent; [valid_here | split; reflexivity | discriminate].
Defined.

Lemma edge_interior_dispatch_witness :
  _check_singular_points
    Choclo.is_point_on_easting_edge Choclo.is_point_on_northing_edge
    Choclo.is_point_on_upward_edge (mkCoordinates [0.5] [0] [1]) [unit_cube] "g_nz"
  = warn SingularPointWarning <-> In "g_nz" ["g_nn"; "g_zz"; "g_nz"].
Proof.
  apply (proj1 (edge_interior_dispatch "g_nz" 0.5 0 1 unit_cube)).
  vm_compute. reflexivity.
Defined.

Lemma density_at_bottom_witness :
  Tesseroid.density Tesseroid.earth_mean_radius (Tesseroid.earth_mean_radius - 10e3)
  = inr 3000.
Proof.
  apply (density_at_bottom Tesseroid.earth_mean_radius); vm_compute; reflexivity.
Defined.

End MoreInstances.

(** ** Past the end of the easting array *)

Section UnwrittenTail.

Lemma jit_prism_gravity_serial_tail (c : coordinates) (prisms : list prism)
  (density : list float) (k : kernel) (out : list float) (i : nat) (d : float) :
  (List.length (easting c) <= i)%nat ->
  nth i (fst (jit_prism_gravity_serial c prisms density k out)) d = nth i out d.
Proof.
  intros Hi. unfold jit_prism_gravity_serial.
  assert (Hinner : forall l ms st, l <> i ->
             nth i (fst (fold_left (fun st m => accumulate c prisms density k l m st)
                                   ms st)) d
             = nth i (fst st) d).
  { intros l ms. induction ms as [|m ms IH]; intros st Hl; [reflexivity|].
    cbn [fold_left]. rewrite IH by exact Hl. unfold accumulate. cbn [fst].
    apply nth_add_at_neq. congruence. }
  assert (Houter : forall ls st, (forall l, In l ls -> l <> i) ->
             nth i (fst (fold_left (fun st l =>
                       fold_left (fun st m => accumulate c prisms density k l m st)
                                 (seq 0 (List.length prisms)) st) ls st)) d
             = nth i (fst st) d).
  { intros ls. induction ls as [|l ls IH]; intros st Hls; [reflexivity|].
    cbn [fold_left]. rewrite IH by (intros; apply Hls; now right).
    apply Hinner, Hls. now left. }
  rewrite Houter; [reflexivity|].
  intros l Hl. apply in_seq in Hl. lia.
Qed.

Lemma jit_prism_gravity_parallel_tail (schedule : list nat) (c : coordinates)
  (prisms : list prism) (density : list float) (k : kernel) (out : list float)
  (i : nat) (d : float) :
  (List.length (easting c) <= i)%nat ->
  nth i (fst (jit_prism_gravity_parallel schedule c prisms density k out)) d
  = nth i out d.
Proof.
  intros Hi. unfold jit_prism_gravity_parallel. cbn [fst].
  assert (H : forall st,
             List.length (par_next st) = List.length (easting c) ->
             nth i (par_out (fold_left (par_step c prisms density k) schedule st)) d
             = nth i (par_out st) d).
  { induction schedule as [|l s IH]; intros st Hst; [reflexivity|].
    cbn [fold_left]. unfold par_step at 2.
    destruct (Nat.ltb (nth l (par_next st) (List.length prisms)) (List.length prisms))
      eqn:Hlt; [|now apply IH].
    apply Nat.ltb_lt in Hlt.
    assert (Hl : (l < List.length (par_next st))%nat).
    { destruct (Nat.lt_ge_cases l (List.length (par_next st))) as [?|Hge]; [assumption|].
      rewrite nth_overflow in Hlt by lia. lia. }
    rewrite IH by (cbn [par_next]; now rewrite length_set_at).
    unfold accumulate. cbn [par_out fst].
    apply nth_add_at_neq. lia. }
  rewrite H; [reflexivity|]. cbn [par_next]. apply repeat_length.
Qed.

Variables gravity_pot gravity_e gravity_n gravity_u : kernel.
Variables gravity_ee gravity_nn gravity_uu : kernel.
Variables gravity_en gravity_eu gravity_nu : kernel.
Variables on_easting on_northing on_upward : check_func.
Variable ProgressBar : bool.

(** X20: the loops run over the size of the easting array, not over the
    broadcast size: when [prism_gravity] returns, the elements of the result
    at the indices from [easting.size] on were never written, and are zero.
    (So with an easting array of size one stretched against longer northing
    and upward arrays, only the first element is computed.) *)
Theorem result_past_easting_is_zero (schedule : list nat) (c : coordinates)
  (prisms : list prism) (density : list float) (field : string)
  (parallel progressbar disable_checks : bool) (result : list float) (i : nat) :
  outcome (prism_gravity gravity_pot gravity_e gravity_n gravity_u gravity_ee
             gravity_nn gravity_uu gravity_en gravity_eu gravity_nu
             on_easting on_northing on_upward ProgressBar
             schedule c prisms density field parallel progressbar disable_checks)
  = inr result ->
  (List.length (easting c) <= i)%nat ->
  (i < List.length result)%nat ->
  (nth i result nan =? 0) = true.
Proof.
  unfold prism_gravity.
  destruct (FIELDS_get _ _ _ _ _ _ _ _ _ _ field) as [k|]; [|discriminate].
  unfold prism_gravity_body.
  destruct (broadcast_size c) as [size|]; [|discriminate].
  destruct (if disable_checks then ret tt
            else sanity_checks on_easting on_northing on_upward c prisms density field)
    as [ws [e|[]]]; cbn [bind]; [discriminate|].
  unfold _discard_null_prisms.
  destruct (null_mask prisms density) as [mask|]; [|discriminate].
  cbn [bind ret].
  destruct (progressbar && negb ProgressBar); cbn [bind raise ret]; [discriminate|].
  assert (Htail : forall j, (List.length (easting c) <= j)%nat ->
             nth j (fst ((if parallel then jit_prism_gravity_parallel schedule
                          else jit_prism_gravity_serial)
                           c (select (map negb mask) prisms)
                           (select (map negb mask) density) k (zeros size))) nan
             = nth j (zeros size) nan).
  { intros j Hj. destruct parallel.
    - now apply jit_prism_gravity_parallel_tail.
    - now apply jit_prism_gravity_serial_tail. }
  pose proof (forward_func_length_any parallel schedule c
                (select (map negb mask) prisms) (select (map negb mask) density)
                k (zeros size)) as Hlen.
  unfold forward_func in Hlen.
  destruct ((if parallel then jit_prism_gravity_parallel schedule
             else jit_prism_gravity_serial) c _ _ k (zeros size)) as [raw calls].
  cbn [fst] in Htail, Hlen. cbn [outcome]. intros H Hi Hlt. injection H as <-.
  rewrite normalize_spec in *. rewrite length_map, Hlen in Hlt.
  rewrite (nth_indep _ nan (spec_normalize field nan))
    by (now rewrite length_map, Hlen).
  rewrite map_nth, (Htail i Hi).
  unfold zeros in *. rewrite repeat_length in Hlt.
  rewrite nth_repeat_lt by exact Hlt. apply spec_normalize_zero.
Qed.

End UnwrittenTail.

Section TailInstance.

Import Example.

Lemma result_past_easting_is_zero_witness :
  (nth 2 [10000 : float; 0; 0] nan =? 0) = true.
Proof.
  apply (result_past_easting_is_zero
           density_kernel density_kernel density_kernel density_kernel
           density_kernel density_kernel density_kernel density_kernel
           density_kernel density_kernel
           Choclo.is_point_on_easting_edge Choclo.is_point_on_northing_edge
           Choclo.is_point_on_upward_edge false
           [] (mkCoordinates [0] [0; 1; 2] [2]) [unit_cube] [tenth] "g_e"
           false false false);
    [vm_compute; reflexivity | simpl; lia | simpl; lia].
Defined.

End TailInstance.
